(** * Windowed rate limiting of the Groq usage tracker

    A shallow embedding of [src/limits.ts] and of the class
    [GroqUsageManager] of [src/groqUsageManager.ts], and the properties of
    the quota design that hold (or fail) on them.

    Conventions of the embedding.
    - A JavaScript [number] that holds a token count, a request count or a
      Unix time in milliseconds is an integer of [Z]; [NaN], infinities and
      fractions are outside the model.
    - [MODEL_LIMITS] is an object literal used as a map: its own properties
      are a [gmap string ModelLimits], and the bracket read falls back on
      the members every object literal inherits from [Object.prototype].
    - [context.globalState] is the key-value store of the extension host, a
      [gmap] from keys to stored states; only the key ["groqUsage"] is used.
      Every in-place mutation of a state read from the store is followed by
      [update] in the source, so states are passed by value.
    - Effects that leave the class (console warnings, the warning pop-up,
      the calls of the registered update callbacks) are appended to a trace.
    - [Date.now()] is an argument [now] of each method; a method body runs
      at one instant, except for the [setTimeout] of
      [enforceLimitsAndWaitIfNeeded].  What [Date.prototype.setHours] makes
      of an instant depends on the time zone of the host: it is the method
      of the class [LocalCalendar]. *)

From Stdlib Require Import ZArith Lia.
From stdpp Require Import base option list strings gmap.

Open Scope Z_scope.

(** ** Effects visible outside the tracker *)

Inductive Event : Type :=
| ConsoleWarn (model : string)
    (* console.warn(`No limits found for model: ${model}. Using default limits.`) *)
| ShowWarning (secondsToWait : Z)
    (* vscode.window.showWarningMessage(`Rate limit reached. Waiting ${secondsToWait} seconds...`) *)
| NotifyUpdates
    (* notifyUpdates(): each registered callback is called once *).

(** ** src/limits.ts *)

Module Limits.

Record ModelLimits : Type := mkLimits {
  rpm : Z;  (* requests per minute *)
  rpd : Z;  (* requests per day *)
  tpm : Z;  (* tokens per minute *)
  tpd : Z   (* tokens per day *)
}.

Definition MODEL_LIMITS : gmap string ModelLimits :=
  list_to_map
    [ ("llama-3.3-70b-versatile", mkLimits 30 14400 6000 500000);
      ("llama-3.1-70b-versatile", mkLimits 30 14400 6000 500000);
      ("llama-3.1-8b-instant",    mkLimits 30 14400 20000 1000000);
      ("llama3-70b-8192",         mkLimits 30 14400 6000 500000);
      ("llama3-8b-8192",          mkLimits 30 14400 20000 1000000);
      ("mixtral-8x7b-32768",      mkLimits 30 14400 5000 500000);
      ("gemma-7b-it",             mkLimits 30 14400 15000 500000);
      ("gemma2-9b-it",            mkLimits 30 14400 15000 500000) ].

(** The names every object literal inherits from [Object.prototype]: eleven
    functions and the accessor [__proto__], all of them truthy. *)
Definition Object_prototype : list string :=
  [ "constructor"; "__defineGetter__"; "__defineSetter__"; "hasOwnProperty";
    "__lookupGetter__"; "__lookupSetter__"; "isPrototypeOf";
    "propertyIsEnumerable"; "toString"; "valueOf"; "__proto__";
    "toLocaleString" ].

(** What a bracket read of [MODEL_LIMITS] can produce, [undefined] apart. *)
Inductive JSValue : Type :=
| JSLimits (limits : ModelLimits)
| JSInherited (key : string).

(** [MODEL_LIMITS[model]]; [None] is [undefined]. *)
Definition MODEL_LIMITS_at (model : string) : option JSValue :=
  match MODEL_LIMITS !! model with
  | Some limits => Some (JSLimits limits)
  | None =>
      if bool_decide (model ∈ Object_prototype)
      then Some (JSInherited model)
      else None
  end.

Definition defaultLimits : ModelLimits := mkLimits 30 14400 6000 500000.

(** The value returned, with the warnings written to the console. *)
Definition getLimitsForModel (model : string) : JSValue * list Event :=
  match MODEL_LIMITS_at model with
  | None => (JSLimits defaultLimits, [ConsoleWarn model])
  | Some limits => (limits, [])
  end.

(** Property reads [limits.rpm] and so on; [None] is [undefined]. *)
Definition get_rpm (v : JSValue) : option Z :=
  match v with JSLimits l => Some (rpm l) | JSInherited _ => None end.
Definition get_rpd (v : JSValue) : option Z :=
  match v with JSLimits l => Some (rpd l) | JSInherited _ => None end.
Definition get_tpm (v : JSValue) : option Z :=
  match v with JSLimits l => Some (tpm l) | JSInherited _ => None end.
Definition get_tpd (v : JSValue) : option Z :=
  match v with JSLimits l => Some (tpd l) | JSInherited _ => None end.

(** [x >= y] where [y] may be [undefined]: [undefined] converts to [NaN]
    and every comparison with [NaN] is false. *)
Definition js_ge (x : Z) (y : option Z) : bool :=
  match y with
  | Some c => c <=? x
  | None => false
  end.

(** The four counters [isRateLimited] reads from its first argument. *)
Record Usage : Type := mkUsage {
  u_tokensUsedThisMinute : Z;
  u_tokensUsedToday : Z;
  u_requestsUsedThisMinute : Z;
  u_requestsUsedToday : Z
}.

Definition isRateLimited (usage : Usage) (limits : JSValue) : bool :=
  js_ge (u_tokensUsedThisMinute usage) (get_tpm limits)
  || js_ge (u_tokensUsedToday usage) (get_tpd limits)
  || js_ge (u_requestsUsedThisMinute usage) (get_rpm limits)
  || js_ge (u_requestsUsedToday usage) (get_rpd limits).

(** [Math.ceil(x / 1000)] for an integer [x]. *)
Definition ceil_div_1000 (x : Z) : Z := - ((- x) / 1000).

Definition getSecondsUntilReset (now minuteResetAt dayResetAt : Z) : Z :=
  let secondsUntilMinuteReset := Z.max 0 (ceil_div_1000 (minuteResetAt - now)) in
  let secondsUntilDayReset := Z.max 0 (ceil_div_1000 (dayResetAt - now)) in
  Z.min secondsUntilMinuteReset secondsUntilDayReset.

End Limits.

(** ** src/groqUsageManager.ts *)

Module GroqUsageManager.
Import Limits.

Record GroqUsageState : Type := mkState {
  model : string;
  tokensUsedThisMinute : Z;
  tokensUsedToday : Z;
  requestsUsedThisMinute : Z;
  requestsUsedToday : Z;
  minuteResetAt : Z;  (* Unix timestamp *)
  dayResetAt : Z      (* Unix timestamp (midnight) *)
}.

(** A state passed where [isRateLimited] expects its four counters. *)
Definition usage_of (state : GroqUsageState) : Usage :=
  mkUsage (tokensUsedThisMinute state) (tokensUsedToday state)
          (requestsUsedThisMinute state) (requestsUsedToday state).

(** [new Date(t).setHours(24, 0, 0, 0)]: the first local midnight after
    the instant [t], as the time zone of the host decides. *)
Class LocalCalendar : Type := { setHours24 : Z → Z }.

(** A host whose local time is UTC. *)
Definition utcCalendar : LocalCalendar :=
  {| setHours24 := λ t, (t / 86400000 + 1) * 86400000 |}.

(** The extension host as the class sees it. *)
Record World : Type := mkWorld {
  globalState : gmap string GroqUsageState;
  trace : list Event
}.

(** Methods thread the world. *)
Definition M (A : Type) : Type := World → A * World.

#[export] Instance M_ret : MRet M := λ A x w, (x, w).
#[export] Instance M_bind : MBind M :=
  λ A B f m w, let '(a, w') := m w in f a w'.

Definition globalState_get (key : string) : M (option GroqUsageState) :=
  λ w, (globalState w !! key, w).

Definition globalState_update (key : string) (value : GroqUsageState) : M unit :=
  λ w, (tt, mkWorld (<[key := value]> (globalState w)) (trace w)).

Definition emit (events : list Event) : M unit :=
  λ w, (tt, mkWorld (globalState w) (trace w ++ events)).

Definition getUsageState : M (option GroqUsageState) :=
  globalState_get "groqUsage".

Definition notifyUpdates : M unit := emit [NotifyUpdates].

(** The store is written at the call; the trace records the callbacks
    there too, although they run once the promise of [update] resolves. *)
Definition updateUsageState (state : GroqUsageState) : M unit :=
  globalState_update "groqUsage" state;;
  notifyUpdates.

Definition getNextMidnight `{LocalCalendar} (now : Z) : Z := setHours24 now.

Definition checkAndResetCounters `{LocalCalendar} (now : Z) : M unit :=
  state ← getUsageState;
  match state with
  | None => mret tt
  | Some state =>
      let updated := false in
      (* Reset minute counters *)
      let '(state, updated) :=
        if minuteResetAt state <=? now
        then (mkState (model state) 0 (tokensUsedToday state)
                      0 (requestsUsedToday state)
                      (now + 60000) (dayResetAt state), true)
        else (state, updated) in
      (* Reset daily counters *)
      let '(state, updated) :=
        if dayResetAt state <=? now
        then (mkState (model state) (tokensUsedThisMinute state) 0
                      (requestsUsedThisMinute state) 0
                      (minuteResetAt state) (getNextMidnight now), true)
        else (state, updated) in
      if updated : bool then updateUsageState state else mret tt
  end.

Definition initializeUsageState `{LocalCalendar} (now : Z) : M unit :=
  existing ← getUsageState;
  match existing with
  | None =>
      let initialState :=
        mkState "llama-3.3-70b-versatile" 0 0 0 0
                (now + 60000) (getNextMidnight now) in
      globalState_update "groqUsage" initialState
  | Some _ => checkAndResetCounters now
  end.

(** One firing of the interval timer of [startResetTimer]. *)
Definition resetTimerTick `{LocalCalendar} (now : Z) : M unit :=
  checkAndResetCounters now.

Definition recordUsage `{LocalCalendar}
    (promptTokens completionTokens totalTokens : Z) (now : Z) : M unit :=
  checkAndResetCounters now;;
  state ← getUsageState;
  match state with
  | None => mret tt
  | Some state =>
      updateUsageState
        (mkState (model state)
                 (tokensUsedThisMinute state + totalTokens)
                 (tokensUsedToday state + totalTokens)
                 (requestsUsedThisMinute state + 1)
                 (requestsUsedToday state + 1)
                 (minuteResetAt state) (dayResetAt state))
  end.

(** [overshoot] is how late the timer of [setTimeout] fires, at least 0.
    What other callers and the interval timer do while this call sleeps is
    not part of it. *)
Definition enforceLimitsAndWaitIfNeeded `{LocalCalendar}
    (now overshoot : Z) : M unit :=
  checkAndResetCounters now;;
  state ← getUsageState;
  match state with
  | None => mret tt
  | Some state =>
      let '(limits, warnings) := getLimitsForModel (model state) in
      emit warnings;;
      if isRateLimited (usage_of state) limits then
        let secondsToWait :=
          getSecondsUntilReset now (minuteResetAt state) (dayResetAt state) in
        emit [ShowWarning secondsToWait];;
        (* Wait, then reset counters after wait *)
        checkAndResetCounters (now + secondsToWait * 1000 + overshoot)
      else mret tt
  end.

Definition isCurrentlyRateLimited `{LocalCalendar} (now : Z) : M bool :=
  checkAndResetCounters now;;
  state ← getUsageState;
  match state with
  | None => mret false
  | Some state =>
      let '(limits, warnings) := getLimitsForModel (model state) in
      emit warnings;;
      mret (isRateLimited (usage_of state) limits)
  end.

Definition getSecondsUntilNextReset (now : Z) : M Z :=
  state ← getUsageState;
  match state with
  | None => mret 0
  | Some state =>
      mret (getSecondsUntilReset now (minuteResetAt state) (dayResetAt state))
  end.

(** [state?.model || "llama-3.3-70b-versatile"]: the empty string is falsy. *)
Definition getCurrentLimits : M JSValue :=
  state ← getUsageState;
  let model' :=
    match state with
    | Some state =>
        if bool_decide (model state = "") then "llama-3.3-70b-versatile"
        else model state
    | None => "llama-3.3-70b-versatile"
    end in
  let '(limits, warnings) := getLimitsForModel model' in
  emit warnings;;
  mret limits.

Definition setModel (model' : string) : M unit :=
  state ← getUsageState;
  match state with
  | None => mret tt
  | Some state =>
      updateUsageState
        (mkState model' (tokensUsedThisMinute state) (tokensUsedToday state)
                 (requestsUsedThisMinute state) (requestsUsedToday state)
                 (minuteResetAt state) (dayResetAt state))
  end.

(** The state a caller reads at [w]. *)
Definition stored (w : World) : option GroqUsageState := fst (getUsageState w).

(** The state [checkAndResetCounters] leaves for [state], field by field;
    lemma [checkAndResetCounters_run] ties it to the method. *)
Definition reconciled `{LocalCalendar} (now : Z) (state : GroqUsageState)
    : GroqUsageState :=
  mkState (model state)
    (if minuteResetAt state <=? now then 0 else tokensUsedThisMinute state)
    (if dayResetAt state <=? now then 0 else tokensUsedToday state)
    (if minuteResetAt state <=? now then 0 else requestsUsedThisMinute state)
    (if dayResetAt state <=? now then 0 else requestsUsedToday state)
    (if minuteResetAt state <=? now then now + 60000 else minuteResetAt state)
    (if dayResetAt state <=? now then getNextMidnight now else dayResetAt state).

End GroqUsageManager.

(** ** src/apiKeyManager.ts

    The key store both view providers read.  A JavaScript string is the
    list of its UTF-16 code units; [context.secrets] is a map from names to
    strings whose [store] and [delete] succeed. *)

Module ApiKeyManager.

(** An ASCII literal of the source as code units. *)
Definition lit (s : string) : list N :=
  map Ascii.N_of_ascii (String.list_ascii_of_string s).

(** The code units [String.prototype.trim] removes: white space and line
    terminators. *)
Definition isWhiteSpace (c : N) : bool :=
  ((9 <=? c) && (c <=? 13) || (c =? 32) || (c =? 160) || (c =? 5760)
   || (8192 <=? c) && (c <=? 8202) || (c =? 8232) || (c =? 8233)
   || (c =? 8239) || (c =? 8287) || (c =? 12288) || (c =? 65279))%N.

Fixpoint trimStart (s : list N) : list N :=
  match s with
  | [] => []
  | c :: rest => if isWhiteSpace c then trimStart rest else s
  end.

Fixpoint trimEnd (s : list N) : list N :=
  match s with
  | [] => []
  | c :: rest =>
      match trimEnd rest with
      | [] => if isWhiteSpace c then [] else [c]
      | kept => c :: kept
      end
  end.

(** [s.trim()] *)
Definition trim (s : list N) : list N := trimEnd (trimStart s).

(** [s === ""], and [!s] for a string [s] *)
Definition isEmpty (s : list N) : bool :=
  match s with [] => true | _ => false end.

Definition SECRET_KEY : string := "aiGitReporter.groqApiKey".

(** A call that returns or throws [new Error(message)]. *)
Inductive Result (A : Type) : Type :=
| Returned (value : A)
| Thrown (message : string).
Arguments Returned {A} value.
Arguments Thrown {A} message.

Definition getApiKey (secrets : gmap string (list N)) : option (list N) :=
  secrets !! SECRET_KEY.

Definition saveApiKey (apiKey : list N) (secrets : gmap string (list N))
    : Result unit * gmap string (list N) :=
  if isEmpty apiKey || isEmpty (trim apiKey)
  then (Thrown "API key cannot be empty", secrets)
  else
    (* Basic validation *)
    if (length apiKey <? 20)%nat
    then (Thrown "API key appears to be invalid (too short)", secrets)
    else (Returned tt, <[SECRET_KEY := trim apiKey]> secrets).

Definition deleteApiKey (secrets : gmap string (list N))
    : gmap string (list N) :=
  delete SECRET_KEY secrets.

Definition hasApiKey (secrets : gmap string (list N)) : bool :=
  match getApiKey secrets with
  | Some key => negb (isEmpty (trim key))
  | None => false
  end.

Definition validateApiKey (apiKey : list N) : bool :=
  if isEmpty apiKey || isEmpty (trim apiKey) then false
  else if (length apiKey <? 20)%nat then false
  else true.

(** Eight bullets, U+2022. *)
Definition bullets : list N := repeat 8226%N 8.

Definition getMaskedApiKey (secrets : gmap string (list N)) : list N :=
  match getApiKey secrets with
  | None => lit "Not set"
  | Some key =>
      if isEmpty key then lit "Not set"
      else if (12 <? length key)%nat
      then (* Show first 8 and last 4 characters *)
        take 8 key ++ lit "..." ++ drop (length key - 4) key
      else bullets
  end.

End ApiKeyManager.

(** ** src/usageManager.ts

    The monthly token tally that the report handler updates next to the
    rate-limit tracker.  The usage file is either absent (with or without
    its directory), text that [JSON.parse] rejects, or the JSON of a
    [UsageData] as [saveUsage] writes it; text that parses to something
    else is outside the model.  Reads succeed; [writeFileSync] and
    [mkdirSync] succeed when the disk is writable.  [currentMonth] is the
    field set by the constructor.  The text of the underlying error that
    the source appends to its messages is left out. *)

Module UsageManager.

Record UsageData : Type := mkUsageData {
  month : string;
  totalUsed : Z;
  promptUsed : Z;
  completionUsed : Z
}.

Inductive UsageFile : Type :=
| NoDirectory
| NoFile
| Unparsable
| Saved (data : UsageData).

Record Disk : Type := mkDisk {
  usageFile : UsageFile;
  writable : bool;
  errorLog : list string   (* console.error *)
}.

(** A call that returns or throws [new Error(message)]. *)
Inductive Outcome (A : Type) : Type :=
| Done (value : A)
| Failed (message : string).
Arguments Done {A} value.
Arguments Failed {A} message.

Definition F (A : Type) : Type := Disk → Outcome A * Disk.

Definition ret {A : Type} (value : A) : F A := λ disk, (Done value, disk).

Definition throw {A : Type} (message : string) : F A :=
  λ disk, (Failed message, disk).

Definition bind {A B : Type} (m : F A) (k : A → F B) : F B :=
  λ disk,
    match m disk with
    | (Done value, disk') => k value disk'
    | (Failed message, disk') => (Failed message, disk')
    end.

(** [try { body } catch (error) { handler }] *)
Definition tryCatch {A : Type} (body : F A) (handler : string → F A) : F A :=
  λ disk,
    match body disk with
    | (Done value, disk') => (Done value, disk')
    | (Failed message, disk') => handler message disk'
    end.

Definition consoleError (message : string) : F unit :=
  λ disk, (Done tt, mkDisk (usageFile disk) (writable disk)
                           (errorLog disk ++ [message])).

(** [fs.existsSync(dir)], [fs.existsSync(this.usageFile)] *)
Definition dirExists (disk : Disk) : bool :=
  match usageFile disk with NoDirectory => false | _ => true end.

Definition fileExists (disk : Disk) : bool :=
  match usageFile disk with NoDirectory | NoFile => false | _ => true end.

(** [fs.mkdirSync(dir, { recursive: true })] *)
Definition mkdirSync : F unit :=
  λ disk,
    if writable disk
    then (Done tt,
          mkDisk (match usageFile disk with
                  | NoDirectory => NoFile
                  | file => file
                  end) (writable disk) (errorLog disk))
    else (Failed "EACCES", disk).

(** [fs.writeFileSync(this.usageFile, JSON.stringify(data, null, 2))] *)
Definition writeFileSync (data : UsageData) : F unit :=
  λ disk,
    if dirExists disk && writable disk
    then (Done tt, mkDisk (Saved data) (writable disk) (errorLog disk))
    else (Failed "ENOENT or EACCES", disk).

Definition emptyUsage (currentMonth : string) : UsageData :=
  mkUsageData currentMonth 0 0 0.

Definition loadUsage (currentMonth : string) : F UsageData :=
  tryCatch
    (λ disk,
       if negb (fileExists disk) then ret (emptyUsage currentMonth) disk
       else
         match usageFile disk with
         | Saved data => ret data disk
         | _ => throw "SyntaxError" disk   (* JSON.parse *)
         end)
    (λ _, bind (consoleError "Error loading usage data:")
               (λ _, ret (emptyUsage currentMonth))).

Definition saveUsage (data : UsageData) : F unit :=
  tryCatch (writeFileSync data)
           (λ _, throw "Failed to save usage data").

Definition resetUsage (currentMonth : string) : F unit :=
  saveUsage (emptyUsage currentMonth).

Definition initialize (currentMonth : string) : F unit :=
  tryCatch
    (bind (λ disk, if negb (dirExists disk) then mkdirSync disk
                   else ret tt disk)
       (λ _ disk,
          (* Create file if it doesn't exist *)
          if negb (fileExists disk) then resetUsage currentMonth disk
          else
            (* Check if we need to reset for new month *)
            bind (loadUsage currentMonth)
              (λ data,
                 if bool_decide (month data ≠ currentMonth)
                 then resetUsage currentMonth
                 else ret tt) disk))
    (λ _, throw "Failed to initialize usage manager").

Definition updateUsage (currentMonth : string)
    (promptTokens completionTokens totalTokens : Z) : F unit :=
  tryCatch
    (bind (loadUsage currentMonth)
       (λ data,
          (* Check if month has changed *)
          if bool_decide (month data ≠ currentMonth)
          then
            bind (resetUsage currentMonth) (λ _,
            bind (loadUsage currentMonth) (λ newData,
            saveUsage (mkUsageData (month newData) totalTokens
                                   promptTokens completionTokens)))
          else
            saveUsage (mkUsageData (month data)
                         (totalUsed data + totalTokens)
                         (promptUsed data + promptTokens)
                         (completionUsed data + completionTokens))))
    (λ _, consoleError "Error updating usage:").

(** One call of [updateUsage]: prompt, completion and total tokens. *)
Record Update : Type := mkUpdate {
  u_prompt : Z;
  u_completion : Z;
  u_total : Z
}.

(** A run of calls of [updateUsage], first call first. *)
Definition updateAll (currentMonth : string) (updates : list Update)
    (disk : Disk) : Disk :=
  foldl (λ disk u,
           snd (updateUsage currentMonth (u_prompt u) (u_completion u)
                            (u_total u) disk))
        disk updates.

End UsageManager.

Import Limits GroqUsageManager.

(** ** Concrete hosts, for the examples below

    All of them run on [utcCalendar]; instant 0 is a UTC midnight, so the
    next one is at 86400000. *)

(** A store that holds [state] under ["groqUsage"] and nothing else. *)
Definition worldOf (state : GroqUsageState) : World :=
  mkWorld {["groqUsage" := state]} [].

(** No stored state at all. *)
Definition emptyWorld : World := mkWorld ∅ [].

(** Minute window over at 0, day window open until 86400000. *)
Definition staleMinuteState : GroqUsageState :=
  mkState "llama-3.3-70b-versatile" 100 200 3 4 0 86400000.

(** Day window over at 86400000, minute window open until 86460000. *)
Definition staleDayState : GroqUsageState :=
  mkState "llama-3.3-70b-versatile" 100 200 3 4 86460000 86400000.

(** Both windows open at instant 1000. *)
Definition liveState : GroqUsageState :=
  mkState "gemma-7b-it" 100 200 3 4 60000 86400000.

(** The day token ceiling of the model is reached; the minute window ends
    at 10000, well before the day window. *)
Definition dayBreachedState : GroqUsageState :=
  mkState "llama-3.3-70b-versatile" 0 500000 0 0 10000 86400000.

(** The minute token ceiling of the model is passed: 5999 + 2 tokens. *)
Definition minuteBreachedState : GroqUsageState :=
  mkState "llama-3.3-70b-versatile" 6001 6001 2 2 10000 86400000.

(** Every counter of [state] is under its ceiling of [l]. *)
Definition below (l : ModelLimits) (state : GroqUsageState) : Prop :=
  tokensUsedThisMinute state < tpm l ∧ tokensUsedToday state < tpd l ∧
  requestsUsedThisMinute state < rpm l ∧ requestsUsedToday state < rpd l.

(** ** The recording operation as the design words it

    [record(unitsConsumed, requestCount)]: the reset rule first, then both
    unit counters grow by [unitsConsumed] and both request counters by
    [requestCount]; the state is stored and the observers are notified.
    To be compared with [recordUsage]. *)
Definition record_spec `{LocalCalendar}
    (unitsConsumed requestCount : Z) (now : Z) : M unit :=
  checkAndResetCounters now;;
  state ← getUsageState;
  match state with
  | None => mret tt
  | Some state =>
      updateUsageState
        (mkState (model state)
                 (tokensUsedThisMinute state + unitsConsumed)
                 (tokensUsedToday state + unitsConsumed)
                 (requestsUsedThisMinute state + requestCount)
                 (requestsUsedToday state + requestCount)
                 (minuteResetAt state) (dayResetAt state))
  end.

(** One call of [recordUsage]: its three arguments and its instant. *)
Record RecordCall : Type := mkCall {
  promptTokens : Z;
  completionTokens : Z;
  totalTokens : Z;
  calledAt : Z
}.

(** A run of calls of [recordUsage], first call first. *)
Fixpoint recordAll `{LocalCalendar} (calls : list RecordCall) (w : World)
    : World :=
  match calls with
  | [] => w
  | call :: rest =>
      recordAll rest
        (snd (recordUsage (promptTokens call) (completionTokens call)
                          (totalTokens call) (calledAt call) w))
  end.

(** Tokens reported by a run of calls. *)
Definition totalOf (calls : list RecordCall) : Z :=
  foldr (λ call acc, totalTokens call + acc) 0 calls.

(** ** Calls on the tracker, one after the other

    The public methods of [GroqUsageManager] and the firing of its
    interval timer, as the view providers and the timer make them. *)
Inductive Call : Type :=
| TimerTick (now : Z)
| RecordUsage (promptTokens completionTokens totalTokens now : Z)
| EnforceLimits (now overshoot : Z)
| IsCurrentlyRateLimited (now : Z)
| GetSecondsUntilNextReset (now : Z)
| GetCurrentLimits
| GetUsageState
| SetModel (model' : string).

(** The world a call leaves; its result is dropped. *)
Definition perform `{LocalCalendar} (call : Call) (w : World) : World :=
  match call with
  | TimerTick now => snd (resetTimerTick now w)
  | RecordUsage p c t now => snd (recordUsage p c t now w)
  | EnforceLimits now overshoot =>
      snd (enforceLimitsAndWaitIfNeeded now overshoot w)
  | IsCurrentlyRateLimited now => snd (isCurrentlyRateLimited now w)
  | GetSecondsUntilNextReset now => snd (getSecondsUntilNextReset now w)
  | GetCurrentLimits => snd (getCurrentLimits w)
  | GetUsageState => snd (getUsageState w)
  | SetModel model' => snd (setModel model' w)
  end.

Definition performAll `{LocalCalendar} (calls : list Call) (w : World)
    : World :=
  foldl (λ w call, perform call w) w calls.

(** The tokens a call reports, 0 for the calls that report none. *)
Definition reportedBy (call : Call) : Z :=
  match call with
  | RecordUsage _ _ totalTokens _ => totalTokens
  | _ => 0
  end.

(** What a call makes of a stored state; lemma [perform_stored] ties it
    to [perform]. *)
Definition stateAfter `{LocalCalendar} (call : Call) (st : GroqUsageState)
    : GroqUsageState :=
  match call with
  | TimerTick now | IsCurrentlyRateLimited now => reconciled now st
  | RecordUsage _ _ t now =>
      let st1 := reconciled now st in
      mkState (model st1)
              (tokensUsedThisMinute st1 + t) (tokensUsedToday st1 + t)
              (requestsUsedThisMinute st1 + 1) (requestsUsedToday st1 + 1)
              (minuteResetAt st1) (dayResetAt st1)
  | EnforceLimits now overshoot =>
      let st1 := reconciled now st in
      if isRateLimited (usage_of st1) (fst (getLimitsForModel (model st1)))
      then reconciled
             (now + getSecondsUntilReset now (minuteResetAt st1)
                      (dayResetAt st1) * 1000 + overshoot) st1
      else st1
  | SetModel model' =>
      mkState model' (tokensUsedThisMinute st) (tokensUsedToday st)
              (requestsUsedThisMinute st) (requestsUsedToday st)
              (minuteResetAt st) (dayResetAt st)
  | GetSecondsUntilNextReset _ | GetCurrentLimits | GetUsageState => st
  end.

(** The model selected by the last [SetModel] of a run of calls, [model0]
    when there is none. *)
Definition modelAfter (calls : list Call) (model0 : string) : string :=
  foldl (λ current call,
           match call with SetModel model' => model' | _ => current end)
        model0 calls.

(** A store with a state under ["groqUsage"] and another one under a key
    of some other part of the extension. *)
Definition sharedWorld : World :=
  mkWorld (<["otherFeature" := staleDayState]>
             {["groqUsage" := staleMinuteState]}) [].

(** No counter of [st] is negative. *)
Definition countersNonneg (st : GroqUsageState) : Prop :=
  0 <= tokensUsedThisMinute st ∧ 0 <= tokensUsedToday st ∧
  0 <= requestsUsedThisMinute st ∧ 0 <= requestsUsedToday st.

(** The four counters of two states agree. *)
Definition sameCounters (st st' : GroqUsageState) : Prop :=
  tokensUsedThisMinute st = tokensUsedThisMinute st' ∧
  tokensUsedToday st = tokensUsedToday st' ∧
  requestsUsedThisMinute st = requestsUsedThisMinute st' ∧
  requestsUsedToday st = requestsUsedToday st'.

(** [w'] holds what [w] holds under every key but ["groqUsage"]. *)
Definition sameElsewhere (w w' : World) : Prop :=
  ∀ key : string, key ≠ "groqUsage" →
    globalState w' !! key = globalState w !! key.

(** ** The monthly tally after a call

    What [UsageManager.updateUsage] leaves in a file it can write; theorem
    [updateUsage_tallies_or_starts_over] ties it to the method. *)
Definition tallied (currentMonth : string) (u : UsageManager.Update)
    (file : UsageManager.UsageFile) : UsageManager.UsageData :=
  match file with
  | UsageManager.Saved data =>
      if bool_decide (UsageManager.month data = currentMonth)
      then UsageManager.mkUsageData currentMonth
             (UsageManager.totalUsed data + UsageManager.u_total u)
             (UsageManager.promptUsed data + UsageManager.u_prompt u)
             (UsageManager.completionUsed data
                + UsageManager.u_completion u)
      else UsageManager.mkUsageData currentMonth (UsageManager.u_total u)
             (UsageManager.u_prompt u) (UsageManager.u_completion u)
  | _ => UsageManager.mkUsageData currentMonth (UsageManager.u_total u)
           (UsageManager.u_prompt u) (UsageManager.u_completion u)
  end.

(** The sum of one of the three token counts over a run of calls. *)
Definition sumOver (count : UsageManager.Update → Z)
    (updates : list UsageManager.Update) : Z :=
  foldr (λ u acc, count u + acc) 0 updates.

(** ** The reset rule *)

Section Reconcile.
Context `{LocalCalendar}.

Lemma checkAndResetCounters_absent (now : Z) (w : World) :
  stored w = None → checkAndResetCounters now w = (tt, w).
Proof.
  unfold stored, checkAndResetCounters, getUsageState, globalState_get.
  unfold mbind, M_bind; simpl. intros ->. reflexivity.
Qed.

Lemma checkAndResetCounters_run (now : Z) (w : World) (st : GroqUsageState) :
  stored w = Some st →
  checkAndResetCounters now w =
    (tt, if (minuteResetAt st <=? now) || (dayResetAt st <=? now)
         then mkWorld (<["groqUsage" := reconciled now st]> (globalState w))
                      (trace w ++ [NotifyUpdates])
         else w).
Proof.
  unfold stored, checkAndResetCounters, getUsageState, globalState_get.
  unfold mbind, M_bind; simpl. intros ->.
  unfold reconciled.
  destruct (minuteResetAt st <=? now) eqn:Hm; simpl;
    destruct (dayResetAt st <=? now) eqn:Hd; simpl; reflexivity.
Qed.

Lemma reconciled_live_id (now : Z) (st : GroqUsageState) :
  now < minuteResetAt st → now < dayResetAt st → reconciled now st = st.
Proof.
  intros Hm Hd. unfold reconciled.
  rewrite (proj2 (Z.leb_gt _ _) Hm), (proj2 (Z.leb_gt _ _) Hd).
  destruct st; reflexivity.
Qed.

Lemma checkAndResetCounters_stored (now : Z) (w : World) (st : GroqUsageState) :
  stored w = Some st →
  stored (snd (checkAndResetCounters now w)) = Some (reconciled now st).
Proof.
  intros Hst. rewrite (checkAndResetCounters_run now w st Hst). simpl.
  destruct (minuteResetAt st <=? now) eqn:Hm; simpl.
  - unfold stored, getUsageState, globalState_get; simpl.
    apply lookup_insert_eq.
  - destruct (dayResetAt st <=? now) eqn:Hd.
    + unfold stored, getUsageState, globalState_get; simpl.
      apply lookup_insert_eq.
    + rewrite Hst. f_equal. symmetry.
      apply reconciled_live_id; apply Z.leb_gt; assumption.
Qed.

Lemma checkAndResetCounters_stored_None (now : Z) (w : World) :
  stored w = None → stored (snd (checkAndResetCounters now w)) = None.
Proof.
  intros Hst. rewrite (checkAndResetCounters_absent now w Hst). exact Hst.
Qed.

End Reconcile.

(** ** Independent windows (C3) *)

(** C3. [checkAndResetCounters] decides the two windows separately.  When
    [now >= minuteResetAt] the two minute counters become 0 and
    [minuteResetAt] becomes [now + 60000]; otherwise these three fields keep
    their values.  When [now >= dayResetAt] the two day counters become 0
    and [dayResetAt] becomes the next local midnight; otherwise these three
    fields keep their values.  The model is never touched.  So a state
    whose minute window is over and whose day window is open loses only its
    minute counters, and the other way round. *)
Theorem reconcile_windows_independent `{LocalCalendar}
    (now : Z) (w : World) (st : GroqUsageState) :
  stored w = Some st →
  ∃ st', stored (snd (checkAndResetCounters now w)) = Some st' ∧
    model st' = model st ∧
    (minuteResetAt st <= now →
       tokensUsedThisMinute st' = 0 ∧ requestsUsedThisMinute st' = 0 ∧
       minuteResetAt st' = now + 60000) ∧
    (now < minuteResetAt st →
       tokensUsedThisMinute st' = tokensUsedThisMinute st ∧
       requestsUsedThisMinute st' = requestsUsedThisMinute st ∧
       minuteResetAt st' = minuteResetAt st) ∧
    (dayResetAt st <= now →
       tokensUsedToday st' = 0 ∧ requestsUsedToday st' = 0 ∧
       dayResetAt st' = getNextMidnight now) ∧
    (now < dayResetAt st →
       tokensUsedToday st' = tokensUsedToday st ∧
       requestsUsedToday st' = requestsUsedToday st ∧
       dayResetAt st' = dayResetAt st).
Proof.
  intros Hst. exists (reconciled now st).
  split; [apply checkAndResetCounters_stored; exact Hst|].
  split; [reflexivity|].
  unfold reconciled; simpl.
  split; [|split; [|split]]; intros Hcmp;
    first [ apply Z.leb_le in Hcmp | apply Z.leb_gt in Hcmp ];
    rewrite Hcmp; repeat split; reflexivity.
Qed.

(** At instant 300000 the minute window of [staleMinuteState] is over and
    its day window is open: only the minute side is reset.  At instant
    86400000 [staleDayState] is in the opposite situation. *)
Lemma reconcile_windows_independent_witness :
  (∃ st', stored (snd (checkAndResetCounters (H:=utcCalendar) 300000
                         (worldOf staleMinuteState))) = Some st' ∧
     tokensUsedThisMinute st' = 0 ∧ requestsUsedThisMinute st' = 0 ∧
     minuteResetAt st' = 360000 ∧
     tokensUsedToday st' = 200 ∧ requestsUsedToday st' = 4 ∧
     dayResetAt st' = 86400000) ∧
  (∃ st', stored (snd (checkAndResetCounters (H:=utcCalendar) 86400000
                         (worldOf staleDayState))) = Some st' ∧
     tokensUsedThisMinute st' = 100 ∧ requestsUsedThisMinute st' = 3 ∧
     minuteResetAt st' = 86460000 ∧
     tokensUsedToday st' = 0 ∧ requestsUsedToday st' = 0 ∧
     dayResetAt st' = 172800000).
Proof.
  split.
  - destruct (reconcile_windows_independent (H:=utcCalendar) 300000
                (worldOf staleMinuteState) staleMinuteState eq_refl)
      as (st' & Hst' & _ & Hm & _ & _ & Hd).
    exists st'. split; [exact Hst'|].
    destruct Hm as (? & ? & ?); [simpl; lia|].
    destruct Hd as (? & ? & ?); [simpl; lia|].
    repeat split; assumption.
  - destruct (reconcile_windows_independent (H:=utcCalendar) 86400000
                (worldOf staleDayState) staleDayState eq_refl)
      as (st' & Hst' & _ & _ & Hm & Hd & _).
    exists st'. split; [exact Hst'|].
    destruct Hm as (? & ? & ?); [simpl; lia|].
    destruct Hd as (? & ? & ?); [simpl; lia|].
    repeat split; assumption.
Defined.

(** ** Operations on a missing state *)

Lemma absent_state_absent `{LocalCalendar} (now : Z) (w : World) :
  stored w = None →
  isCurrentlyRateLimited now w = (false, w) ∧
  (∀ p c t, recordUsage p c t now w = (tt, w)).
Proof.
  intros Hst. pose proof (checkAndResetCounters_absent now w Hst) as Hrec.
  unfold stored, getUsageState, globalState_get in Hst; simpl in Hst.
  unfold recordUsage, isCurrentlyRateLimited, getUsageState, globalState_get.
  unfold mbind, M_bind, mret, M_ret. rewrite Hrec, Hst. auto.
Qed.

(** ** A missing state (C10) *)

(** C10. When the store holds no state under ["groqUsage"], [recordUsage]
    and [setModel] return without changing the store or the trace,
    [isCurrentlyRateLimited] answers [false] and [getSecondsUntilNextReset]
    answers 0, both leaving the world as it was. *)
Theorem absent_state_noop `{LocalCalendar}
    (now promptTokens completionTokens totalTokens : Z) (id : string)
    (w : World) :
  stored w = None →
  recordUsage promptTokens completionTokens totalTokens now w = (tt, w) ∧
  setModel id w = (tt, w) ∧
  isCurrentlyRateLimited now w = (false, w) ∧
  getSecondsUntilNextReset now w = (0, w).
Proof.
  intros Hst. pose proof (checkAndResetCounters_absent now w Hst) as Hrec.
  unfold stored, getUsageState, globalState_get in Hst; simpl in Hst.
  unfold recordUsage, setModel, isCurrentlyRateLimited,
    getSecondsUntilNextReset, getUsageState, globalState_get.
  unfold mbind, M_bind, mret, M_ret. rewrite Hrec, Hst. auto.
Qed.

Lemma absent_state_noop_witness :
  stored emptyWorld = None ∧
  recordUsage (H:=utcCalendar) 7 5 12 1000 emptyWorld = (tt, emptyWorld) ∧
  setModel "gemma-7b-it" emptyWorld = (tt, emptyWorld) ∧
  isCurrentlyRateLimited (H:=utcCalendar) 1000 emptyWorld = (false, emptyWorld) ∧
  getSecondsUntilNextReset 1000 emptyWorld = (0, emptyWorld).
Proof.
  split; [reflexivity|].
  apply (absent_state_noop (H:=utcCalendar) 1000 7 5 12 "gemma-7b-it"
           emptyWorld).
  reflexivity.
Defined.

(** ** Switching the model (C8) *)

(** C8. On a store that holds a state, [setModel id] stores a state whose
    model is [id] and whose four counters and two reset timestamps are
    those of the old state; other keys of the store keep their values. *)
Theorem setModel_changes_only_model
    (id : string) (w : World) (st : GroqUsageState) :
  stored w = Some st →
  ∃ st', stored (snd (setModel id w)) = Some st' ∧
    model st' = id ∧
    tokensUsedThisMinute st' = tokensUsedThisMinute st ∧
    tokensUsedToday st' = tokensUsedToday st ∧
    requestsUsedThisMinute st' = requestsUsedThisMinute st ∧
    requestsUsedToday st' = requestsUsedToday st ∧
    minuteResetAt st' = minuteResetAt st ∧
    dayResetAt st' = dayResetAt st ∧
    ∀ key : string, key ≠ "groqUsage" →
      globalState (snd (setModel id w)) !! key = globalState w !! key.
Proof.
  unfold stored, setModel, updateUsageState, notifyUpdates, emit,
    getUsageState, globalState_get, globalState_update.
  unfold mbind, M_bind; simpl. intros ->; simpl.
  eexists. split; [apply lookup_insert_eq|]. simpl.
  repeat (split; [reflexivity|]).
  intros key Hkey. apply lookup_insert_ne. congruence.
Qed.

Lemma setModel_changes_only_model_witness :
  stored (worldOf liveState) = Some liveState ∧
  stored (snd (setModel "llama3-8b-8192" (worldOf liveState))) =
    Some (mkState "llama3-8b-8192" 100 200 3 4 60000 86400000).
Proof.
  split; [reflexivity|].
  destruct (setModel_changes_only_model "llama3-8b-8192"
              (worldOf liveState) liveState eq_refl)
    as (st' & Hst' & Hmodel & H1 & H2 & H3 & H4 & H5 & H6 & _).
  rewrite Hst'. destruct st'; simpl in *. congruence.
Defined.

(** ** Initialization (C9) *)

Lemma utcCalendar_future (t : Z) : t < @setHours24 utcCalendar t.
Proof.
  simpl. pose proof (Z.mod_pos_bound t 86400000 ltac:(lia)).
  pose proof (Z.div_mod t 86400000 ltac:(lia)). lia.
Qed.

Lemma initialize_fresh_reload_idempotent_aux `{LocalCalendar}
    (now : Z) (w : World) :
  (stored w = None →
     stored (snd (initializeUsageState now w)) =
       Some (mkState "llama-3.3-70b-versatile" 0 0 0 0
                     (now + 60000) (getNextMidnight now))) ∧
  (∀ st, stored w = Some st →
     initializeUsageState now w = checkAndResetCounters now w).
Proof.
  split.
  - unfold stored, initializeUsageState, getUsageState, globalState_get,
      globalState_update.
    unfold mbind, M_bind; simpl. intros ->; simpl. apply lookup_insert_eq.
  - intros st. unfold stored, initializeUsageState, getUsageState,
      globalState_get.
    unfold mbind at 1; unfold M_bind; simpl. intros ->. reflexivity.
Qed.

(** C9. With nothing stored, [initializeUsageState] stores the model
    ["llama-3.3-70b-versatile"] with four counters at 0, [minuteResetAt] at
    [now + 60000] and [dayResetAt] at the next local midnight.  With a state
    stored it runs the reset rule, so a state whose minute window is over
    comes out with both minute counters at 0 and [minuteResetAt] at
    [now + 60000].  On a stored state whose two windows are open it changes
    nothing; and where the calendar puts the next midnight after [now], a
    second call at the same instant changes nothing either. *)
Theorem initialize_fresh_reload_idempotent `{LocalCalendar}
    (now : Z) (w : World) :
  (stored w = None →
     stored (snd (initializeUsageState now w)) =
       Some (mkState "llama-3.3-70b-versatile" 0 0 0 0
                     (now + 60000) (getNextMidnight now))) ∧
  (∀ st, stored w = Some st →
     initializeUsageState now w = checkAndResetCounters now w ∧
     (minuteResetAt st <= now →
        ∃ st', stored (snd (initializeUsageState now w)) = Some st' ∧
          tokensUsedThisMinute st' = 0 ∧ requestsUsedThisMinute st' = 0 ∧
          minuteResetAt st' = now + 60000) ∧
     (now < minuteResetAt st → now < dayResetAt st →
        initializeUsageState now w = (tt, w))) ∧
  ((∀ t, t < setHours24 t) →
     initializeUsageState now (snd (initializeUsageState now w)) =
       (tt, snd (initializeUsageState now w))).
Proof.
  assert (Hfresh : stored w = None →
            stored (snd (initializeUsageState now w)) =
              Some (mkState "llama-3.3-70b-versatile" 0 0 0 0
                            (now + 60000) (getNextMidnight now))).
  { unfold stored, initializeUsageState, getUsageState, globalState_get,
      globalState_update.
    unfold mbind, M_bind; simpl. intros ->; simpl. apply lookup_insert_eq. }
  assert (Hreload : ∀ st, stored w = Some st →
            initializeUsageState now w = checkAndResetCounters now w).
  { intros st. unfold stored, initializeUsageState, getUsageState,
      globalState_get.
    unfold mbind at 1; unfold M_bind; simpl. intros ->. reflexivity. }
  assert (Hlive : ∀ v st, stored v = Some st →
            now < minuteResetAt st → now < dayResetAt st →
            initializeUsageState now v = (tt, v)).
  { intros v st Hst Hm Hd.
    assert (Hv : initializeUsageState now v = checkAndResetCounters now v).
    { revert Hst. unfold stored, initializeUsageState, getUsageState,
        globalState_get.
      unfold mbind at 1; unfold M_bind; simpl. intros ->. reflexivity. }
    rewrite Hv, (checkAndResetCounters_run now v st Hst).
    rewrite (proj2 (Z.leb_gt _ _) Hm), (proj2 (Z.leb_gt _ _) Hd).
    reflexivity. }
  split; [exact Hfresh|]. split.
  - intros st Hst. split; [exact (Hreload st Hst)|]. split.
    + intros Hm. rewrite (Hreload st Hst).
      exists (reconciled now st).
      split; [apply checkAndResetCounters_stored; exact Hst|].
      unfold reconciled; simpl. rewrite (proj2 (Z.leb_le _ _) Hm). auto.
    + apply Hlive. exact Hst.
  - intros Hfut. destruct (stored w) as [st|] eqn:Hst.
    + eapply (Hlive _ (reconciled now st)).
      * rewrite (Hreload st eq_refl).
        apply checkAndResetCounters_stored; exact Hst.
      * unfold reconciled; simpl.
        destruct (minuteResetAt st <=? now) eqn:Hm; [lia|].
        apply Z.leb_gt; exact Hm.
      * unfold reconciled; simpl.
        destruct (dayResetAt st <=? now) eqn:Hd;
          [apply Hfut | apply Z.leb_gt; exact Hd].
    + eapply Hlive; [apply Hfresh; reflexivity | simpl; lia | apply Hfut].
Qed.

Lemma initialize_fresh_reload_idempotent_witness :
  stored (snd (initializeUsageState (H:=utcCalendar) 1000 emptyWorld)) =
    Some (mkState "llama-3.3-70b-versatile" 0 0 0 0 61000 86400000) ∧
  (∃ st', stored (snd (initializeUsageState (H:=utcCalendar) 300000
                         (worldOf staleMinuteState))) = Some st' ∧
     tokensUsedThisMinute st' = 0 ∧ requestsUsedThisMinute st' = 0 ∧
     minuteResetAt st' = 360000) ∧
  initializeUsageState (H:=utcCalendar) 1000 (worldOf liveState) =
    (tt, worldOf liveState) ∧
  initializeUsageState (H:=utcCalendar) 1000
      (snd (initializeUsageState (H:=utcCalendar) 1000 emptyWorld)) =
    (tt, snd (initializeUsageState (H:=utcCalendar) 1000 emptyWorld)).
Proof.
  split; [|split; [|split]].
  - exact (proj1 (initialize_fresh_reload_idempotent (H:=utcCalendar)
                    1000 emptyWorld) eq_refl).
  - destruct (proj1 (proj2 (initialize_fresh_reload_idempotent
                (H:=utcCalendar) 300000 (worldOf staleMinuteState)))
              staleMinuteState eq_refl) as (_ & Hm & _).
    apply Hm. simpl; lia.
  - destruct (proj1 (proj2 (initialize_fresh_reload_idempotent
                (H:=utcCalendar) 1000 (worldOf liveState)))
              liveState eq_refl) as (_ & _ & Hl).
    apply Hl; simpl; lia.
  - apply (proj2 (proj2 (initialize_fresh_reload_idempotent
                (H:=utcCalendar) 1000 emptyWorld))).
    exact utcCalendar_future.
Defined.

(** ** The wait computed from the two reset timestamps (C5) *)

Lemma ceil_div_1000_spec (x : Z) :
  1000 * (ceil_div_1000 x - 1) < x <= 1000 * ceil_div_1000 x.
Proof.
  unfold ceil_div_1000.
  pose proof (Z.mod_pos_bound (- x) 1000 ltac:(lia)).
  pose proof (Z.div_mod (- x) 1000 ltac:(lia)). lia.
Qed.

Lemma getSecondsUntilNextReset_run (now : Z) (w : World) :
  getSecondsUntilNextReset now w =
    (match stored w with
     | None => 0
     | Some st => getSecondsUntilReset now (minuteResetAt st) (dayResetAt st)
     end, w).
Proof.
  unfold getSecondsUntilNextReset, stored, getUsageState, globalState_get.
  unfold mbind, M_bind; simpl.
  destruct (globalState w !! "groqUsage"); reflexivity.
Qed.

(** C5. [ceil_div_1000 x] is the ceiling of [x / 1000]: the least integer
    [k] with [x <= 1000 * k].  [getSecondsUntilReset] is the smaller of the
    ceilings of [(minuteResetAt - now) / 1000] and [(dayResetAt - now) /
    1000], floored at 0, hence never negative; a minute reset 10 s ahead
    and a day reset 3600 s ahead give 10.  [getSecondsUntilNextReset]
    returns that number for the two timestamps of the stored state. *)
Theorem secondsUntilReset_min_ceil (now minuteResetAt' dayResetAt' : Z) :
  let cm := ceil_div_1000 (minuteResetAt' - now) in
  let cd := ceil_div_1000 (dayResetAt' - now) in
  1000 * (cm - 1) < minuteResetAt' - now <= 1000 * cm ∧
  1000 * (cd - 1) < dayResetAt' - now <= 1000 * cd ∧
  getSecondsUntilReset now minuteResetAt' dayResetAt' = Z.max 0 (Z.min cm cd) ∧
  0 <= getSecondsUntilReset now minuteResetAt' dayResetAt' ∧
  getSecondsUntilReset now (now + 10000) (now + 3600000) = 10 ∧
  ∀ model' a b c d (gs : gmap string GroqUsageState) (tr : list Event),
    fst (getSecondsUntilNextReset now
           (mkWorld (<["groqUsage" :=
                        mkState model' a b c d minuteResetAt' dayResetAt']> gs)
                    tr))
    = Z.max 0 (Z.min cm cd).
Proof.
  intros cm cd.
  assert (Heq : getSecondsUntilReset now minuteResetAt' dayResetAt'
                = Z.max 0 (Z.min cm cd)).
  { unfold getSecondsUntilReset. fold cm cd. lia. }
  split; [apply ceil_div_1000_spec|].
  split; [apply ceil_div_1000_spec|].
  split; [exact Heq|].
  split; [rewrite Heq; lia|].
  split.
  - unfold getSecondsUntilReset.
    replace (now + 10000 - now) with 10000 by lia.
    replace (now + 3600000 - now) with 3600000 by lia.
    reflexivity.
  - intros model' a b c d gs tr. rewrite getSecondsUntilNextReset_run.
    unfold stored, getUsageState, globalState_get; simpl.
    rewrite lookup_insert_eq. simpl. exact Heq.
Qed.

(** ** The admission test (C1) *)

Lemma isRateLimited_iff (usage : Usage) (l : ModelLimits) :
  isRateLimited usage (JSLimits l) = true ↔
  (u_tokensUsedThisMinute usage >= tpm l ∨
   u_tokensUsedToday usage >= tpd l ∨
   u_requestsUsedThisMinute usage >= rpm l ∨
   u_requestsUsedToday usage >= rpd l).
Proof.
  unfold isRateLimited, js_ge; simpl.
  rewrite !orb_true_iff, !Z.leb_le. lia.
Qed.

Lemma isCurrentlyRateLimited_run `{LocalCalendar}
    (now : Z) (w : World) (st : GroqUsageState) :
  stored (snd (checkAndResetCounters now w)) = Some st →
  isCurrentlyRateLimited now w =
    (isRateLimited (usage_of st) (fst (getLimitsForModel (model st))),
     mkWorld (globalState (snd (checkAndResetCounters now w)))
             (trace (snd (checkAndResetCounters now w))
                ++ snd (getLimitsForModel (model st)))).
Proof.
  unfold isCurrentlyRateLimited. unfold mbind at 1 2; unfold M_bind.
  destruct (checkAndResetCounters now w) as [[] w1]; simpl.
  unfold stored, getUsageState, globalState_get; simpl. intros ->.
  destruct (getLimitsForModel (model st)) as [limits warnings]; simpl.
  reflexivity.
Qed.

(** C1. For every four counters and every limit entry, [isRateLimited] is
    true exactly when one counter has reached its ceiling: tokens this
    minute against [tpm], tokens today against [tpd], requests this minute
    against [rpm], requests today against [rpd].  [isCurrentlyRateLimited]
    answers that test for the state left by the reset rule and the entry
    the catalog gives for its model.  A state with open windows whose
    [requestsUsedToday] equals [rpd] is reported as limited whatever the
    other counters are, 0 included. *)
Theorem isOverLimit_iff_any_ceiling_reached `{LocalCalendar} :
  (∀ usage l,
     isRateLimited usage (JSLimits l) = true ↔
     (u_tokensUsedThisMinute usage >= tpm l ∨
      u_tokensUsedToday usage >= tpd l ∨
      u_requestsUsedThisMinute usage >= rpm l ∨
      u_requestsUsedToday usage >= rpd l)) ∧
  (∀ now w st l,
     stored (snd (checkAndResetCounters now w)) = Some st →
     fst (getLimitsForModel (model st)) = JSLimits l →
     (fst (isCurrentlyRateLimited now w) = true ↔
      (tokensUsedThisMinute st >= tpm l ∨
       tokensUsedToday st >= tpd l ∨
       requestsUsedThisMinute st >= rpm l ∨
       requestsUsedToday st >= rpd l))) ∧
  (∀ now w st l,
     stored w = Some st →
     now < dayResetAt st →
     fst (getLimitsForModel (model st)) = JSLimits l →
     requestsUsedToday st = rpd l →
     fst (isCurrentlyRateLimited now w) = true).
Proof.
  assert (Hmgr : ∀ now w st l,
     stored (snd (checkAndResetCounters now w)) = Some st →
     fst (getLimitsForModel (model st)) = JSLimits l →
     (fst (isCurrentlyRateLimited now w) = true ↔
      (tokensUsedThisMinute st >= tpm l ∨
       tokensUsedToday st >= tpd l ∨
       requestsUsedThisMinute st >= rpm l ∨
       requestsUsedToday st >= rpd l))).
  { intros now w st l Hst Hl.
    rewrite (isCurrentlyRateLimited_run now w st Hst); simpl.
    rewrite Hl. apply (isRateLimited_iff (usage_of st) l). }
  split; [exact isRateLimited_iff|]. split; [exact Hmgr|].
  intros now w st l Hst Hday Hl Hreq.
  apply (Hmgr now w (reconciled now st) l).
  - apply checkAndResetCounters_stored; exact Hst.
  - exact Hl.
  - right; right; right. unfold reconciled; simpl.
    rewrite (proj2 (Z.leb_gt _ _) Hday). lia.
Qed.

(** Only [requestsUsedToday] is at its ceiling, 14400 for this model. *)
Lemma isOverLimit_iff_any_ceiling_reached_witness :
  isRateLimited (mkUsage 0 0 0 14400)
                (JSLimits (mkLimits 30 14400 6000 500000)) = true ∧
  fst (isCurrentlyRateLimited (H:=utcCalendar) 1000
         (worldOf (mkState "llama-3.3-70b-versatile" 0 0 0 14400
                           60000 86400000))) = true.
Proof.
  split.
  - apply (proj1 (isOverLimit_iff_any_ceiling_reached (H:=utcCalendar))).
    simpl. lia.
  - apply (proj2 (proj2 (isOverLimit_iff_any_ceiling_reached
                           (H:=utcCalendar)))
             1000 _ (mkState "llama-3.3-70b-versatile" 0 0 0 14400
                             60000 86400000)
             (mkLimits 30 14400 6000 500000)).
    + reflexivity.
    + simpl; lia.
    + vm_compute; reflexivity.
    + reflexivity.
Defined.

(** ** The catalog (C6) *)

Lemma getLimitsForModel_configured (model' : string) (l : ModelLimits) :
  MODEL_LIMITS !! model' = Some l →
  getLimitsForModel model' = (JSLimits l, []).
Proof.
  intros Hl. unfold getLimitsForModel, MODEL_LIMITS_at. rewrite Hl.
  reflexivity.
Qed.

Lemma getLimitsForModel_unknown (model' : string) :
  MODEL_LIMITS !! model' = None →
  model' ∉ Object_prototype →
  getLimitsForModel model' = (JSLimits defaultLimits, [ConsoleWarn model']).
Proof.
  intros Hl Hproto. unfold getLimitsForModel, MODEL_LIMITS_at. rewrite Hl.
  rewrite bool_decide_eq_false_2 by exact Hproto. reflexivity.
Qed.

Lemma getLimitsForModel_inherited (key : string) :
  key ∈ Object_prototype →
  getLimitsForModel key = (JSInherited key, []).
Proof.
  intros Hkey. unfold getLimitsForModel, MODEL_LIMITS_at.
  assert (Hown : MODEL_LIMITS !! key = None).
  { unfold Object_prototype in Hkey.
    repeat (apply elem_of_cons in Hkey as [-> | Hkey];
            [vm_compute; reflexivity|]).
    apply elem_of_nil in Hkey. destruct Hkey. }
  rewrite Hown, bool_decide_eq_true_2 by exact Hkey. reflexivity.
Qed.

(** Every entry the catalog returns has four positive ceilings. *)
Lemma getLimitsForModel_positive (model' : string) (l : ModelLimits) :
  fst (getLimitsForModel model') = JSLimits l →
  0 < rpm l ∧ 0 < rpd l ∧ 0 < tpm l ∧ 0 < tpd l.
Proof.
  unfold getLimitsForModel, MODEL_LIMITS_at.
  destruct (MODEL_LIMITS !! model') as [l0|] eqn:Hown; simpl.
  - intros [= <-]. unfold MODEL_LIMITS in Hown.
    apply elem_of_list_to_map_2 in Hown.
    repeat (apply elem_of_cons in Hown as [[= -> ->] | Hown];
            [simpl; lia|]).
    apply elem_of_nil in Hown. destruct Hown.
  - destruct (bool_decide (model' ∈ Object_prototype)); simpl.
    + discriminate.
    + intros [= <-]. simpl. lia.
Qed.

(** C6, at the id ["constructor"].  It is not a key of [MODEL_LIMITS], yet
    the bracket read finds the member of that name that every object
    inherits, which is truthy: [getLimitsForModel] returns it as it is,
    without a warning.  What comes back is neither a configured entry nor
    the default entry, and [isRateLimited] is false against it for all
    counters. *)
Theorem getLimitsForModel_inherited_key :
  MODEL_LIMITS !! "constructor" = None ∧
  getLimitsForModel "constructor" = (JSInherited "constructor", []) ∧
  (∀ l, fst (getLimitsForModel "constructor") ≠ JSLimits l) ∧
  (∀ usage,
     isRateLimited usage (fst (getLimitsForModel "constructor")) = false).
Proof.
  assert (Hget : getLimitsForModel "constructor"
                 = (JSInherited "constructor", [])).
  { apply getLimitsForModel_inherited. unfold Object_prototype.
    apply elem_of_cons. left. reflexivity. }
  split; [vm_compute; reflexivity|]. split; [exact Hget|].
  rewrite Hget; simpl. split; [discriminate | reflexivity].
Qed.

(** ** Waiting for capacity (C2) *)

Section Wait.
Context `{LocalCalendar}.

Lemma isRateLimited_false_iff (st : GroqUsageState) (l : ModelLimits) :
  isRateLimited (usage_of st) (JSLimits l) = false ↔ below l st.
Proof.
  unfold isRateLimited, js_ge, below; simpl.
  rewrite !orb_false_iff, !Z.leb_gt. tauto.
Qed.

(** The reset rule leaves each counter as it was or at 0. *)
Lemma reconciled_below (t : Z) (st : GroqUsageState) (l : ModelLimits) :
  0 < rpm l ∧ 0 < rpd l ∧ 0 < tpm l ∧ 0 < tpd l →
  below l st → below l (reconciled t st).
Proof.
  unfold below, reconciled; simpl. intros Hpos Hb.
  destruct (minuteResetAt st <=? t), (dayResetAt st <=? t); lia.
Qed.

(** A reset of the window that holds every breached counter frees the
    state. *)
Lemma reconciled_clears (t : Z) (st : GroqUsageState) (l : ModelLimits) :
  0 < rpm l ∧ 0 < rpd l ∧ 0 < tpm l ∧ 0 < tpd l →
  (minuteResetAt st <= t ∧
     tokensUsedToday st < tpd l ∧ requestsUsedToday st < rpd l) ∨
  (dayResetAt st <= t ∧
     tokensUsedThisMinute st < tpm l ∧ requestsUsedThisMinute st < rpm l) →
  below l (reconciled t st).
Proof.
  unfold below, reconciled; simpl. intros Hpos Hcase.
  destruct (minuteResetAt st <=? t) eqn:Hm, (dayResetAt st <=? t) eqn:Hd;
    try apply Z.leb_gt in Hm; try apply Z.leb_gt in Hd; lia.
Qed.

(** The wait, in milliseconds, reaches the earlier of the two resets. *)
Lemma wait_reaches_earlier_reset (now m d overshoot : Z) :
  0 <= overshoot →
  (m <= d → m <= now + getSecondsUntilReset now m d * 1000 + overshoot) ∧
  (d <= m → d <= now + getSecondsUntilReset now m d * 1000 + overshoot).
Proof.
  intros Hov. unfold getSecondsUntilReset.
  pose proof (ceil_div_1000_spec (m - now)).
  pose proof (ceil_div_1000_spec (d - now)). lia.
Qed.

Lemma enforceLimitsAndWaitIfNeeded_stored
    (now overshoot : Z) (w : World) (st : GroqUsageState) :
  stored (snd (checkAndResetCounters now w)) = Some st →
  stored (snd (enforceLimitsAndWaitIfNeeded now overshoot w)) =
    Some (if isRateLimited (usage_of st) (fst (getLimitsForModel (model st)))
          then reconciled
                 (now + getSecondsUntilReset now (minuteResetAt st)
                          (dayResetAt st) * 1000 + overshoot) st
          else st).
Proof.
  unfold enforceLimitsAndWaitIfNeeded. unfold mbind at 1 2; unfold M_bind.
  destruct (checkAndResetCounters now w) as [[] w1]; simpl.
  intros Hst. pose proof Hst as Hlook.
  unfold stored, getUsageState, globalState_get in Hlook; simpl in Hlook.
  rewrite Hlook.
  destruct (getLimitsForModel (model st)) as [limits warnings]; simpl.
  unfold mbind, M_bind, emit; simpl.
  destruct (isRateLimited (usage_of st) limits); simpl.
  - apply checkAndResetCounters_stored. exact Hlook.
  - exact Hlook.
Qed.

End Wait.

(** C2, as stated, fails on [dayBreachedState] at instant 0: the day token
    ceiling is reached, the minute window ends in 10 s and the day window
    in 86400 s.  The wait is 10 s; after it and the reset rule the state is
    still limited, also when the wait is made by
    [enforceLimitsAndWaitIfNeeded] itself. *)
Lemma wait_too_short_when_day_ceiling_reached :
  fst (isCurrentlyRateLimited (H:=utcCalendar) 0
         (worldOf dayBreachedState)) = true ∧
  fst (getSecondsUntilNextReset 0 (worldOf dayBreachedState)) = 10 ∧
  fst (isCurrentlyRateLimited (H:=utcCalendar) (0 + 10 * 1000)
         (snd (checkAndResetCounters (H:=utcCalendar) (0 + 10 * 1000)
                 (worldOf dayBreachedState)))) = true ∧
  fst (isCurrentlyRateLimited (H:=utcCalendar) (0 + 10 * 1000)
         (snd (enforceLimitsAndWaitIfNeeded (H:=utcCalendar) 0 0
                 (worldOf dayBreachedState)))) = true.
Proof. vm_compute. auto. Qed.

(** C2, amended.  Let [st] be the state after the reset rule at [now], [l]
    the entry of its model, and let every counter at or over its ceiling
    belong to the window that is reset first: the day counters are under
    their ceilings when the minute reset is not later than the day reset,
    the minute counters are when the day reset is not later.  Then once the
    clock has advanced by the seconds of [getSecondsUntilReset] (and any
    overshoot of the timer) and the reset rule has run,
    [isCurrentlyRateLimited] is false; the same holds after
    [enforceLimitsAndWaitIfNeeded]. *)
Theorem wait_suffices_for_earlier_window `{LocalCalendar}
    (now overshoot : Z) (w : World) (st : GroqUsageState) (l : ModelLimits) :
  stored (snd (checkAndResetCounters now w)) = Some st →
  fst (getLimitsForModel (model st)) = JSLimits l →
  0 <= overshoot →
  (minuteResetAt st <= dayResetAt st ∧
     tokensUsedToday st < tpd l ∧ requestsUsedToday st < rpd l) ∨
  (dayResetAt st <= minuteResetAt st ∧
     tokensUsedThisMinute st < tpm l ∧ requestsUsedThisMinute st < rpm l) →
  let secondsToWait :=
    getSecondsUntilReset now (minuteResetAt st) (dayResetAt st) in
  let wake := now + secondsToWait * 1000 + overshoot in
  fst (isCurrentlyRateLimited wake
         (snd (checkAndResetCounters wake
                 (snd (checkAndResetCounters now w))))) = false ∧
  fst (isCurrentlyRateLimited wake
         (snd (enforceLimitsAndWaitIfNeeded now overshoot w))) = false.
Proof.
  intros Hst Hl Hov Hcase secondsToWait wake.
  pose proof (getLimitsForModel_positive _ _ Hl) as Hpos.
  destruct (wait_reaches_earlier_reset now (minuteResetAt st) (dayResetAt st)
              overshoot Hov) as [Hmin Hday].
  fold secondsToWait in Hmin, Hday. fold wake in Hmin, Hday.
  assert (Hfree : below l (reconciled wake st)).
  { apply reconciled_clears; [exact Hpos|].
    destruct Hcase as [(Hle & ? & ?) | (Hle & ? & ?)]; [left | right];
      (split; [auto | split; assumption]). }
  split.
  - rewrite (isCurrentlyRateLimited_run wake _
               (reconciled wake (reconciled wake st))).
    + simpl. rewrite Hl. apply isRateLimited_false_iff.
      apply reconciled_below; assumption.
    + do 2 apply checkAndResetCounters_stored. exact Hst.
  - pose proof (enforceLimitsAndWaitIfNeeded_stored now overshoot w st Hst)
      as Henf.
    fold secondsToWait in Henf. fold wake in Henf. rewrite Hl in Henf.
    destruct (isRateLimited (usage_of st) (JSLimits l)) eqn:Hlim.
    + rewrite (isCurrentlyRateLimited_run wake _
                 (reconciled wake (reconciled wake st))).
      * simpl. rewrite Hl. apply isRateLimited_false_iff.
        apply reconciled_below; assumption.
      * apply checkAndResetCounters_stored. exact Henf.
    + rewrite (isCurrentlyRateLimited_run wake _ (reconciled wake st)).
      * simpl. rewrite Hl. apply isRateLimited_false_iff.
        apply reconciled_below; [exact Hpos|].
        apply isRateLimited_false_iff. exact Hlim.
      * apply checkAndResetCounters_stored. exact Henf.
Qed.

(** [minuteBreachedState] at instant 0: limited by its minute tokens, free
    after the 10 s of the wait. *)
Lemma wait_suffices_for_earlier_window_witness :
  fst (isCurrentlyRateLimited (H:=utcCalendar) 0
         (worldOf minuteBreachedState)) = true ∧
  getSecondsUntilReset 0 (minuteResetAt minuteBreachedState)
                         (dayResetAt minuteBreachedState) = 10 ∧
  fst (isCurrentlyRateLimited (H:=utcCalendar) (0 + 10 * 1000 + 0)
         (snd (enforceLimitsAndWaitIfNeeded (H:=utcCalendar) 0 0
                 (worldOf minuteBreachedState)))) = false.
Proof.
  split; [vm_compute; reflexivity|]. split; [vm_compute; reflexivity|].
  apply (wait_suffices_for_earlier_window (H:=utcCalendar) 0 0
           (worldOf minuteBreachedState) minuteBreachedState
           (mkLimits 30 14400 6000 500000)).
  - vm_compute; reflexivity.
  - vm_compute; reflexivity.
  - lia.
  - left. simpl. lia.
Defined.

(** ** Recording usage (C4) *)

Section Record.
Context `{LocalCalendar}.

Lemma recordUsage_stored (p c t now : Z) (w : World) (st : GroqUsageState) :
  stored (snd (checkAndResetCounters now w)) = Some st →
  stored (snd (recordUsage p c t now w)) =
    Some (mkState (model st)
                  (tokensUsedThisMinute st + t) (tokensUsedToday st + t)
                  (requestsUsedThisMinute st + 1) (requestsUsedToday st + 1)
                  (minuteResetAt st) (dayResetAt st)).
Proof.
  unfold recordUsage. unfold mbind at 1 2; unfold M_bind.
  destruct (checkAndResetCounters now w) as [[] w1]; simpl.
  unfold stored, getUsageState, globalState_get; simpl. intros ->.
  unfold updateUsageState, notifyUpdates, emit, globalState_update.
  unfold mbind, M_bind; simpl. apply lookup_insert_eq.
Qed.

(** [recordUsage] is the recording operation of the design at
    [requestCount = 1]; its first two arguments are not used. *)
Lemma recordUsage_is_record_spec_one (p c t now : Z) (w : World) :
  recordUsage p c t now w = record_spec t 1 now w.
Proof. reflexivity. Qed.

(** With both windows open, a run of calls adds up the reported tokens in
    both token counters and counts one request per call in both request
    counters; the reset timestamps stay. *)
Lemma recordAll_stored (calls : list RecordCall) :
  ∀ (w : World) (st : GroqUsageState),
    stored w = Some st →
    Forall (λ call, calledAt call < minuteResetAt st ∧
                    calledAt call < dayResetAt st) calls →
    stored (recordAll calls w) =
      Some (mkState (model st)
              (tokensUsedThisMinute st + totalOf calls)
              (tokensUsedToday st + totalOf calls)
              (requestsUsedThisMinute st + Z.of_nat (length calls))
              (requestsUsedToday st + Z.of_nat (length calls))
              (minuteResetAt st) (dayResetAt st)).
Proof.
  induction calls as [|call rest IH]; intros w st Hst Hlive.
  - simpl. rewrite Hst, !Z.add_0_r. destruct st; reflexivity.
  - apply Forall_cons in Hlive as [[Hm Hd] Hrest].
    cbn [recordAll].
    erewrite IH; [| apply recordUsage_stored;
                    apply checkAndResetCounters_stored; exact Hst |].
    + rewrite (reconciled_live_id _ _ Hm Hd). cbn [model tokensUsedThisMinute
        tokensUsedToday requestsUsedThisMinute requestsUsedToday
        minuteResetAt dayResetAt totalOf foldr length].
      fold (totalOf rest). f_equal. f_equal; lia.
    + rewrite (reconciled_live_id _ _ Hm Hd). exact Hrest.
Qed.

Lemma totalOf_nonneg (calls : list RecordCall) :
  Forall (λ call, 0 <= totalTokens call) calls → 0 <= totalOf calls.
Proof.
  induction 1 as [|call rest Hcall _ IH]; simpl; [lia|].
  fold (totalOf rest). lia.
Qed.

End Record.

(** C4, as stated, fails for a request count other than 1.  On
    [liveState] at instant 1000 the design's [record(5, 2)] brings the
    request counters from 3 and 4 to 5 and 6; every call of [recordUsage]
    that reports 5 tokens brings them to 4 and 5. *)
Lemma recordUsage_counts_one_request_only :
  stored (snd (record_spec (H:=utcCalendar) 5 2 1000 (worldOf liveState))) =
    Some (mkState "gemma-7b-it" 105 205 5 6 60000 86400000) ∧
  (∀ p c,
     stored (snd (recordUsage (H:=utcCalendar) p c 5 1000
                    (worldOf liveState))) =
       Some (mkState "gemma-7b-it" 105 205 4 5 60000 86400000)) ∧
  ¬ (∃ p c,
       recordUsage (H:=utcCalendar) p c 5 1000 (worldOf liveState) =
       record_spec (H:=utcCalendar) 5 2 1000 (worldOf liveState)).
Proof.
  split; [vm_compute; reflexivity|]. split.
  - intros p c. rewrite recordUsage_is_record_spec_one.
    vm_compute; reflexivity.
  - intros (p & c & Heq). rewrite recordUsage_is_record_spec_one in Heq.
    apply (f_equal (λ r, stored (snd r))) in Heq.
    vm_compute in Heq. discriminate Heq.
Qed.

(** C4, amended.  [recordUsage] runs the reset rule, then adds
    [totalTokens] to both token counters and exactly 1 to both request
    counters: it is the recording operation of the design at a request
    count of 1.  Over a run of calls that report no negative token count
    and that all fall before both reset timestamps, no counter decreases:
    each token counter grows by the tokens reported and each request
    counter by the number of calls.  5 tokens and then 3 make 8 more. *)
Theorem recordUsage_adds_tokens_and_one_request `{LocalCalendar} :
  (∀ p c t now w st,
     stored (snd (checkAndResetCounters now w)) = Some st →
     stored (snd (recordUsage p c t now w)) =
       Some (mkState (model st)
               (tokensUsedThisMinute st + t) (tokensUsedToday st + t)
               (requestsUsedThisMinute st + 1) (requestsUsedToday st + 1)
               (minuteResetAt st) (dayResetAt st))) ∧
  (∀ p c t now w, recordUsage p c t now w = record_spec t 1 now w) ∧
  (∀ calls w st,
     stored w = Some st →
     Forall (λ call, 0 <= totalTokens call ∧
                     calledAt call < minuteResetAt st ∧
                     calledAt call < dayResetAt st) calls →
     ∃ st', stored (recordAll calls w) = Some st' ∧
       tokensUsedThisMinute st' = tokensUsedThisMinute st + totalOf calls ∧
       tokensUsedToday st' = tokensUsedToday st + totalOf calls ∧
       requestsUsedThisMinute st' =
         requestsUsedThisMinute st + Z.of_nat (length calls) ∧
       requestsUsedToday st' =
         requestsUsedToday st + Z.of_nat (length calls) ∧
       tokensUsedThisMinute st <= tokensUsedThisMinute st' ∧
       tokensUsedToday st <= tokensUsedToday st' ∧
       requestsUsedThisMinute st <= requestsUsedThisMinute st' ∧
       requestsUsedToday st <= requestsUsedToday st') ∧
  (∀ p1 c1 now1 p2 c2 now2 w st,
     stored w = Some st →
     now1 < minuteResetAt st → now1 < dayResetAt st →
     now2 < minuteResetAt st → now2 < dayResetAt st →
     ∃ st', stored (recordAll [mkCall p1 c1 5 now1; mkCall p2 c2 3 now2] w)
              = Some st' ∧
       tokensUsedThisMinute st' = tokensUsedThisMinute st + 8).
Proof.
  split; [intros; apply recordUsage_stored; assumption|].
  split; [intros; apply recordUsage_is_record_spec_one|].
  split.
  - intros calls w st Hst Hcalls.
    assert (Hlive : Forall (λ call, calledAt call < minuteResetAt st ∧
                                    calledAt call < dayResetAt st) calls).
    { eapply Forall_impl; [exact Hcalls|]. simpl. tauto. }
    assert (Hpos : 0 <= totalOf calls).
    { apply totalOf_nonneg. eapply Forall_impl; [exact Hcalls|].
      simpl. tauto. }
    eexists. split; [apply recordAll_stored; eassumption|]. simpl.
    repeat split; lia.
  - intros p1 c1 now1 p2 c2 now2 w st Hst Hm1 Hd1 Hm2 Hd2.
    eexists. split.
    + apply recordAll_stored; [exact Hst|].
      repeat (apply Forall_cons; split; [simpl; lia|]). apply Forall_nil.
      exact I.
    + simpl. lia.
Qed.

(** From four counters at 0, reports of 5 and then 3 tokens leave 8 tokens
    and 2 requests in both windows. *)
Lemma recordUsage_adds_tokens_and_one_request_witness :
  ∃ st', stored (recordAll (H:=utcCalendar)
                   [mkCall 3 2 5 1000; mkCall 2 1 3 2000]
                   (worldOf (mkState "gemma-7b-it" 0 0 0 0 60000 86400000)))
           = Some st' ∧
    tokensUsedThisMinute st' = 8 ∧ tokensUsedToday st' = 8 ∧
    requestsUsedThisMinute st' = 2 ∧ requestsUsedToday st' = 2.
Proof.
  destruct (proj1 (proj2 (proj2 (recordUsage_adds_tokens_and_one_request
                                   (H:=utcCalendar))))
              [mkCall 3 2 5 1000; mkCall 2 1 3 2000]
              (worldOf (mkState "gemma-7b-it" 0 0 0 0 60000 86400000))
              (mkState "gemma-7b-it" 0 0 0 0 60000 86400000) eq_refl)
    as (st' & Hst' & Htm & Htd & Hrm & Hrd & _).
  - repeat (apply Forall_cons; split; [simpl; lia|]). apply Forall_nil.
    exact I.
  - exists st'. split; [exact Hst'|].
    repeat split; [exact Htm | exact Htd | exact Hrm | exact Hrd].
Defined.

(** ** Which operations run the reset rule (C7) *)

(** Where the calendar puts the next midnight after [now], the state the
    reset rule leaves has both windows open. *)
Lemma reconciled_live `{LocalCalendar} (now : Z) (st : GroqUsageState) :
  (∀ t, t < setHours24 t) →
  now < minuteResetAt (reconciled now st) ∧
  now < dayResetAt (reconciled now st).
Proof.
  intros Hfut. unfold reconciled; simpl. split.
  - destruct (minuteResetAt st <=? now) eqn:Hm; [lia|].
    apply Z.leb_gt; exact Hm.
  - destruct (dayResetAt st <=? now) eqn:Hd;
      [apply Hfut | apply Z.leb_gt; exact Hd].
Qed.

(** C7, as stated, fails for the two readers.  At instant 300000 the
    minute window of [staleMinuteState] has been over since 0.
    [getUsageState] returns the state as stored, with its 100 tokens and 3
    requests of the past minute, where the reset rule would have left 0;
    [getSecondsUntilNextReset] answers 0 from the old timestamp, where the
    reset rule would have made it 60; neither changes the store. *)
Lemma readers_do_not_reconcile :
  getUsageState (worldOf staleMinuteState) =
    (Some staleMinuteState, worldOf staleMinuteState) ∧
  minuteResetAt staleMinuteState <= 300000 ∧
  tokensUsedThisMinute staleMinuteState = 100 ∧
  requestsUsedThisMinute staleMinuteState = 3 ∧
  stored (snd (checkAndResetCounters (H:=utcCalendar) 300000
                 (worldOf staleMinuteState))) =
    Some (mkState "llama-3.3-70b-versatile" 0 200 0 4 360000 86400000) ∧
  getSecondsUntilNextReset 300000 (worldOf staleMinuteState) =
    (0, worldOf staleMinuteState) ∧
  fst (getSecondsUntilNextReset 300000
         (snd (checkAndResetCounters (H:=utcCalendar) 300000
                 (worldOf staleMinuteState)))) = 60.
Proof. vm_compute. repeat split; discriminate. Qed.

(** C7, amended.  [isCurrentlyRateLimited] and [recordUsage] run the reset
    rule first: the first leaves the state the reset rule leaves and
    answers from it, the second adds to the counters of that state; where
    the calendar puts the next midnight after [now], that state has both
    windows open, so neither works on counters of a window that is over.
    [getUsageState] and [getSecondsUntilNextReset] do not run the reset
    rule: they answer from the state as it is stored and leave the world as
    it is. *)
Theorem reset_rule_runs_before_admission_and_record `{LocalCalendar}
    (now : Z) (w : World) :
  stored (snd (isCurrentlyRateLimited now w)) =
    stored (snd (checkAndResetCounters now w)) ∧
  (∀ st, stored (snd (checkAndResetCounters now w)) = Some st →
     fst (isCurrentlyRateLimited now w) =
       isRateLimited (usage_of st) (fst (getLimitsForModel (model st))) ∧
     (∀ p c t,
        stored (snd (recordUsage p c t now w)) =
          Some (mkState (model st)
                  (tokensUsedThisMinute st + t) (tokensUsedToday st + t)
                  (requestsUsedThisMinute st + 1) (requestsUsedToday st + 1)
                  (minuteResetAt st) (dayResetAt st))) ∧
     ((∀ t, t < setHours24 t) →
        now < minuteResetAt st ∧ now < dayResetAt st)) ∧
  getUsageState w = (globalState w !! "groqUsage", w) ∧
  getSecondsUntilNextReset now w =
    (match globalState w !! "groqUsage" with
     | None => 0
     | Some st => getSecondsUntilReset now (minuteResetAt st) (dayResetAt st)
     end, w).
Proof.
  split; [|split; [|split]].
  - destruct (stored (snd (checkAndResetCounters now w))) as [st|] eqn:Hst.
    + rewrite (isCurrentlyRateLimited_run now w st Hst). exact Hst.
    + destruct (stored w) as [st0|] eqn:Hst0.
      * rewrite (checkAndResetCounters_stored now w st0 Hst0) in Hst.
        discriminate Hst.
      * destruct (absent_state_absent now w Hst0) as [-> _]. exact Hst0.
  - intros st Hst. split; [|split].
    + rewrite (isCurrentlyRateLimited_run now w st Hst). reflexivity.
    + intros p c t. apply recordUsage_stored. exact Hst.
    + intros Hfut. destruct (stored w) as [st0|] eqn:Hst0.
      * rewrite (checkAndResetCounters_stored now w st0 Hst0) in Hst.
        injection Hst as <-. apply reconciled_live. exact Hfut.
      * rewrite (checkAndResetCounters_stored_None now w Hst0) in Hst.
        discriminate Hst.
  - reflexivity.
  - apply getSecondsUntilNextReset_run.
Qed.

(** [staleMinuteState] at instant 300000, under the UTC calendar: the
    admission test is made on the reset state, and a report of 12 tokens
    is added to counters that start again from 0. *)
Lemma reset_rule_runs_before_admission_and_record_witness :
  fst (isCurrentlyRateLimited (H:=utcCalendar) 300000
         (worldOf staleMinuteState)) =
    isRateLimited (mkUsage 0 200 0 4)
                  (JSLimits (mkLimits 30 14400 6000 500000)) ∧
  stored (snd (recordUsage (H:=utcCalendar) 7 5 12 300000
                 (worldOf staleMinuteState))) =
    Some (mkState "llama-3.3-70b-versatile" 12 212 1 5 360000 86400000) ∧
  300000 < 360000 ∧ 300000 < 86400000.
Proof.
  destruct (proj1 (proj2 (reset_rule_runs_before_admission_and_record
                            (H:=utcCalendar) 300000
                            (worldOf staleMinuteState)))
              (mkState "llama-3.3-70b-versatile" 0 200 0 4 360000 86400000)
              eq_refl)
    as (Hadm & Hrec & Hlive).
  split; [exact Hadm|]. split; [exact (Hrec 7 5 12)|].
  exact (Hlive utcCalendar_future).
Defined.

(** * Further properties of the tracker *)

(** ** What each call does to the store *)

Section Calls.
Context `{LocalCalendar}.

Lemma sameElsewhere_refl (w : World) : sameElsewhere w w.
Proof. intros key _. reflexivity. Qed.

Lemma sameElsewhere_trans (w1 w2 w3 : World) :
  sameElsewhere w1 w2 → sameElsewhere w2 w3 → sameElsewhere w1 w3.
Proof.
  intros H12 H23 key Hkey. rewrite (H23 key Hkey). apply H12. exact Hkey.
Qed.

Lemma sameElsewhere_update (w : World) (st : GroqUsageState) :
  sameElsewhere w (snd (updateUsageState st w)).
Proof.
  intros key Hkey. unfold updateUsageState, notifyUpdates, emit,
    globalState_update, mbind, M_bind; simpl.
  apply lookup_insert_ne. congruence.
Qed.

Lemma sameElsewhere_emit (w : World) (events : list Event) :
  sameElsewhere w (mkWorld (globalState w) (trace w ++ events)).
Proof. intros key _. reflexivity. Qed.

Lemma checkAndResetCounters_sameElsewhere (now : Z) (w : World) :
  sameElsewhere w (snd (checkAndResetCounters now w)).
Proof.
  destruct (stored w) as [st|] eqn:Hst.
  - rewrite (checkAndResetCounters_run now w st Hst); simpl.
    destruct (_ || _); [|apply sameElsewhere_refl].
    intros key Hkey; simpl. apply lookup_insert_ne. congruence.
  - rewrite (checkAndResetCounters_absent now w Hst).
    apply sameElsewhere_refl.
Qed.

Lemma enforceLimitsAndWaitIfNeeded_absent (now overshoot : Z) (w : World) :
  stored w = None → enforceLimitsAndWaitIfNeeded now overshoot w = (tt, w).
Proof.
  intros Hst. pose proof (checkAndResetCounters_absent now w Hst) as Hrec.
  unfold stored, getUsageState, globalState_get in Hst; simpl in Hst.
  unfold enforceLimitsAndWaitIfNeeded, getUsageState, globalState_get.
  unfold mbind, M_bind, mret, M_ret. rewrite Hrec, Hst. reflexivity.
Qed.

Lemma getCurrentLimits_run (w : World) :
  getCurrentLimits w =
    (let model' :=
       match stored w with
       | Some st => if bool_decide (model st = "")
                    then "llama-3.3-70b-versatile" else model st
       | None => "llama-3.3-70b-versatile"
       end in
     (fst (getLimitsForModel model'),
      mkWorld (globalState w) (trace w ++ snd (getLimitsForModel model')))).
Proof.
  unfold getCurrentLimits, stored, getUsageState, globalState_get.
  unfold mbind at 1; unfold M_bind; simpl.
  destruct (globalState w !! "groqUsage") as [st|];
    [destruct (bool_decide (model st = ""))|];
    match goal with
    | |- context [getLimitsForModel ?m] =>
        destruct (getLimitsForModel m) as [limits warnings]
    end; reflexivity.
Qed.

Lemma setModel_run (model' : string) (w : World) (st : GroqUsageState) :
  stored w = Some st →
  setModel model' w = updateUsageState (stateAfter (SetModel model') st) w.
Proof.
  unfold stored, setModel, getUsageState, globalState_get.
  unfold mbind at 1; unfold M_bind; simpl. intros ->. reflexivity.
Qed.

Lemma setModel_absent (model' : string) (w : World) :
  stored w = None → setModel model' w = (tt, w).
Proof.
  unfold stored, setModel, getUsageState, globalState_get.
  unfold mbind at 1; unfold M_bind; simpl. intros ->. reflexivity.
Qed.

Lemma stored_updateUsageState (st : GroqUsageState) (w : World) :
  stored (snd (updateUsageState st w)) = Some st.
Proof.
  unfold stored, updateUsageState, notifyUpdates, emit, globalState_update,
    getUsageState, globalState_get, mbind, M_bind; simpl.
  apply lookup_insert_eq.
Qed.

(** A call acts on the stored state as [stateAfter] says, and creates no
    state where there is none. *)
Lemma perform_stored (call : Call) (w : World) :
  stored (perform call w) = stateAfter call <$> stored w.
Proof.
  destruct (stored w) as [st|] eqn:Hst;
    destruct call as [now|p c t now|now ov|now|now| | |model'];
    cbn [perform stateAfter fmap option_fmap option_map resetTimerTick].
  - apply checkAndResetCounters_stored; exact Hst.
  - apply (recordUsage_stored p c t now w (reconciled now st)),
      checkAndResetCounters_stored; exact Hst.
  - apply (enforceLimitsAndWaitIfNeeded_stored now ov w (reconciled now st)),
      checkAndResetCounters_stored; exact Hst.
  - rewrite (isCurrentlyRateLimited_run now w (reconciled now st));
      [|apply checkAndResetCounters_stored; exact Hst].
    cbn [snd]. apply (checkAndResetCounters_stored now w st Hst).
  - rewrite getSecondsUntilNextReset_run. exact Hst.
  - rewrite getCurrentLimits_run. exact Hst.
  - exact Hst.
  - rewrite (setModel_run model' w st Hst). apply stored_updateUsageState.
  - apply checkAndResetCounters_stored_None; exact Hst.
  - rewrite (proj2 (absent_state_absent now w Hst)). exact Hst.
  - rewrite (enforceLimitsAndWaitIfNeeded_absent now ov w Hst). exact Hst.
  - rewrite (proj1 (absent_state_absent now w Hst)). exact Hst.
  - rewrite getSecondsUntilNextReset_run. exact Hst.
  - rewrite getCurrentLimits_run. exact Hst.
  - exact Hst.
  - rewrite (setModel_absent model' w Hst). exact Hst.
Qed.

Lemma perform_sameElsewhere (call : Call) (w : World) :
  sameElsewhere w (perform call w).
Proof.
  destruct call as [now|p c t now|now ov|now|now| | |model']; simpl.
  - apply checkAndResetCounters_sameElsewhere.
  - pose proof (checkAndResetCounters_sameElsewhere now w) as Hrec.
    unfold recordUsage. unfold mbind at 1 2; unfold M_bind.
    destruct (checkAndResetCounters now w) as [[] w1]; simpl in *.
    destruct (globalState w1 !! "groqUsage") as [st|]; [|exact Hrec].
    eapply sameElsewhere_trans; [exact Hrec|apply sameElsewhere_update].
  - pose proof (checkAndResetCounters_sameElsewhere now w) as Hrec.
    unfold enforceLimitsAndWaitIfNeeded. unfold mbind at 1 2; unfold M_bind.
    destruct (checkAndResetCounters now w) as [[] w1]; simpl in *.
    destruct (globalState w1 !! "groqUsage") as [st|]; [|exact Hrec].
    destruct (getLimitsForModel (model st)) as [limits warnings].
    unfold mbind, M_bind, emit; simpl.
    destruct (isRateLimited (usage_of st) limits); simpl.
    + eapply sameElsewhere_trans; [exact Hrec|].
      eapply sameElsewhere_trans;
        [|apply checkAndResetCounters_sameElsewhere].
      intros key _. reflexivity.
    + exact Hrec.
  - pose proof (checkAndResetCounters_sameElsewhere now w) as Hrec.
    unfold isCurrentlyRateLimited. unfold mbind at 1 2; unfold M_bind.
    destruct (checkAndResetCounters now w) as [[] w1]; simpl in *.
    destruct (globalState w1 !! "groqUsage") as [st|]; [|exact Hrec].
    destruct (getLimitsForModel (model st)) as [limits warnings].
    exact Hrec.
  - rewrite getSecondsUntilNextReset_run. apply sameElsewhere_refl.
  - rewrite getCurrentLimits_run. apply sameElsewhere_emit.
  - apply sameElsewhere_refl.
  - destruct (stored w) as [st|] eqn:Hst.
    + rewrite (setModel_run model' w st Hst). apply sameElsewhere_update.
    + rewrite (setModel_absent model' w Hst). apply sameElsewhere_refl.
Qed.

End Calls.

(** ** Runs of calls *)

Section Runs.
Context `{LocalCalendar}.

Lemma performAll_stored (calls : list Call) :
  ∀ w, stored (performAll calls w) =
       foldl (λ o call, stateAfter call <$> o) (stored w) calls.
Proof.
  induction calls as [|call rest IH]; intros w; [reflexivity|].
  cbn [performAll foldl]. fold (performAll rest (perform call w)).
  rewrite IH, perform_stored. reflexivity.
Qed.

Lemma stateAfter_model (call : Call) (st : GroqUsageState) :
  model (stateAfter call st) =
    match call with SetModel model' => model' | _ => model st end.
Proof.
  destruct call; simpl; try reflexivity.
  destruct (isRateLimited _ _); reflexivity.
Qed.

Lemma reconciled_nonneg (t : Z) (st : GroqUsageState) :
  countersNonneg st → countersNonneg (reconciled t st).
Proof.
  unfold countersNonneg, reconciled; simpl. intros Hst.
  destruct (minuteResetAt st <=? t), (dayResetAt st <=? t); lia.
Qed.

Lemma stateAfter_nonneg (call : Call) (st : GroqUsageState) :
  0 <= reportedBy call → countersNonneg st →
  countersNonneg (stateAfter call st).
Proof.
  intros Hcall Hst.
  destruct call as [now|p c t now|now ov|now|now| | |model'];
    cbn [stateAfter]; try exact Hst; try (apply reconciled_nonneg; exact Hst).
  - pose proof (reconciled_nonneg now st Hst) as Hrec.
    unfold countersNonneg in *; simpl in *. lia.
  - destruct (isRateLimited _ _); repeat apply reconciled_nonneg; exact Hst.
Qed.

End Runs.

(** X1. Whatever calls are made on the tracker and in whatever order, the
    store keeps under every key other than ["groqUsage"] what it held; the
    calls create no state where there is none and never remove the state
    that is there. *)
Theorem calls_touch_only_groqUsage `{LocalCalendar}
    (calls : list Call) (w : World) :
  (∀ key : string, key ≠ "groqUsage" →
     globalState (performAll calls w) !! key = globalState w !! key) ∧
  (stored w = None → stored (performAll calls w) = None) ∧
  (is_Some (stored w) → is_Some (stored (performAll calls w))).
Proof.
  split; [|split].
  - revert w. induction calls as [|call rest IH]; intros w key Hkey;
      [reflexivity|].
    cbn [performAll foldl]. fold (performAll rest (perform call w)).
    rewrite (IH _ key Hkey). apply perform_sameElsewhere. exact Hkey.
  - rewrite performAll_stored. intros ->.
    induction calls as [|call rest IH]; [reflexivity | exact IH].
  - rewrite performAll_stored. generalize (stored w) as o.
    induction calls as [|call rest IH]; intros o Ho; [exact Ho|].
    cbn [foldl]. apply IH. destruct Ho as [st ->]. eexists; reflexivity.
Qed.

Lemma calls_touch_only_groqUsage_witness :
  globalState
    (performAll (H:=utcCalendar)
       [RecordUsage 7 5 12 300000; SetModel "gemma-7b-it";
        EnforceLimits 300500 0; TimerTick 86400000]
       sharedWorld) !! "otherFeature" = Some staleDayState ∧
  stored (performAll (H:=utcCalendar)
            [TimerTick 1000; RecordUsage 7 5 12 2000; SetModel "gemma-7b-it"]
            emptyWorld) = None.
Proof.
  split.
  - rewrite (proj1 (calls_touch_only_groqUsage (H:=utcCalendar) _
                      sharedWorld) "otherFeature");
      [reflexivity | discriminate].
  - apply (proj1 (proj2 (calls_touch_only_groqUsage (H:=utcCalendar) _
                           emptyWorld))).
    reflexivity.
Defined.

(** X2. If no counter of the stored state is negative and no call reports
    a negative token count, then after any run of calls no counter is
    negative. *)
Theorem counters_never_negative `{LocalCalendar}
    (calls : list Call) (w : World) (st : GroqUsageState) :
  stored w = Some st →
  countersNonneg st →
  Forall (λ call, 0 <= reportedBy call) calls →
  ∃ st', stored (performAll calls w) = Some st' ∧ countersNonneg st'.
Proof.
  rewrite performAll_stored. intros -> Hst Hcalls. revert st Hst.
  induction Hcalls as [|call rest Hcall _ IH]; intros st Hst.
  - exists st. split; [reflexivity | exact Hst].
  - cbn [foldl fmap option_fmap option_map].
    apply IH, stateAfter_nonneg; assumption.
Qed.

Lemma counters_never_negative_witness :
  ∃ st', stored (performAll (H:=utcCalendar)
                   [RecordUsage 7 5 12 300000; TimerTick 300500;
                    EnforceLimits 301000 0; RecordUsage 0 0 0 86400000]
                   (worldOf staleMinuteState)) = Some st' ∧
    countersNonneg st'.
Proof.
  apply (counters_never_negative (H:=utcCalendar) _ _ staleMinuteState).
  - reflexivity.
  - unfold countersNonneg; simpl; lia.
  - repeat (apply Forall_cons; split; [simpl; lia|]). apply Forall_nil.
    exact I.
Defined.

(** X3. After any run of calls the stored model is the one given by the
    last [setModel] of the run, and the model stored before the run when
    the run has no [setModel]: the reset rule, recording and waiting never
    change the model. *)
Theorem only_setModel_changes_model `{LocalCalendar}
    (calls : list Call) (w : World) (st : GroqUsageState) :
  stored w = Some st →
  ∃ st', stored (performAll calls w) = Some st' ∧
    model st' = modelAfter calls (model st).
Proof.
  rewrite performAll_stored. intros ->. revert st.
  induction calls as [|call rest IH]; intros st.
  - exists st. split; reflexivity.
  - cbn [foldl fmap option_fmap option_map]. unfold modelAfter.
    cbn [foldl]. fold (modelAfter rest).
    destruct (IH (stateAfter call st)) as (st' & Hst' & Hmodel).
    exists st'. split; [exact Hst'|].
    rewrite Hmodel, stateAfter_model. reflexivity.
Qed.

Lemma only_setModel_changes_model_witness :
  ∃ st', stored (performAll (H:=utcCalendar)
                   [RecordUsage 7 5 12 300000; SetModel "gemma-7b-it";
                    TimerTick 86400000; SetModel "llama3-8b-8192";
                    EnforceLimits 86400500 0]
                   (worldOf staleMinuteState)) = Some st' ∧
    model st' = "llama3-8b-8192".
Proof.
  exact (only_setModel_changes_model (H:=utcCalendar) _
           (worldOf staleMinuteState) staleMinuteState eq_refl).
Defined.

(** ** The interval timer and the admission test *)

Section Ticks.
Context `{LocalCalendar}.

Lemma sameCounters_usage (st st' : GroqUsageState) :
  sameCounters st st' → usage_of st = usage_of st'.
Proof.
  unfold sameCounters, usage_of. intros (-> & -> & -> & ->). reflexivity.
Qed.

(** The counters the reset rule leaves at [now'] do not depend on an
    earlier run of the rule. *)
Lemma reconciled_after_earlier (t now' : Z) (st : GroqUsageState) :
  t <= now' →
  sameCounters (reconciled now' (reconciled t st)) (reconciled now' st).
Proof.
  intros Hle. unfold sameCounters, reconciled; simpl.
  destruct (minuteResetAt st <=? t) eqn:Hm, (dayResetAt st <=? t) eqn:Hd;
    try apply Z.leb_le in Hm; try apply Z.leb_le in Hd;
    try apply Z.leb_gt in Hm; try apply Z.leb_gt in Hd;
    destruct (minuteResetAt st <=? now') eqn:Hm',
             (dayResetAt st <=? now') eqn:Hd';
    try apply Z.leb_le in Hm'; try apply Z.leb_le in Hd';
    try apply Z.leb_gt in Hm'; try apply Z.leb_gt in Hd'; try lia;
    repeat match goal with
           | |- context [if ?b then _ else _] => destruct b
           end; auto.
Qed.

Lemma isCurrentlyRateLimited_answer (now : Z) (w : World) :
  fst (isCurrentlyRateLimited now w) =
    match stored w with
    | Some st =>
        isRateLimited (usage_of (reconciled now st))
                      (fst (getLimitsForModel (model st)))
    | None => false
    end.
Proof.
  destruct (stored w) as [st|] eqn:Hst.
  - rewrite (isCurrentlyRateLimited_run now w (reconciled now st));
      [reflexivity | apply checkAndResetCounters_stored; exact Hst].
  - rewrite (proj1 (absent_state_absent now w Hst)). reflexivity.
Qed.

End Ticks.

(** X4. Firings of the interval timer at instants up to [now'], in any
    number and order, change neither the answer of
    [isCurrentlyRateLimited] at [now'] nor the counters and the model it
    leaves in the store. *)
Theorem timer_ticks_do_not_change_admission `{LocalCalendar}
    (ticks : list Z) (now' : Z) (w : World) :
  Forall (λ t, t <= now') ticks →
  fst (isCurrentlyRateLimited now' (performAll (map TimerTick ticks) w)) =
    fst (isCurrentlyRateLimited now' w) ∧
  match stored (snd (isCurrentlyRateLimited now'
                       (performAll (map TimerTick ticks) w))),
        stored (snd (isCurrentlyRateLimited now' w)) with
  | Some st1, Some st2 => sameCounters st1 st2 ∧ model st1 = model st2
  | None, None => True
  | _, _ => False
  end.
Proof.
  intros Hticks.
  change (λ w, snd (isCurrentlyRateLimited now' w))
    with (perform (IsCurrentlyRateLimited now')).
  change (snd (isCurrentlyRateLimited now'
                 (performAll (map TimerTick ticks) w)))
    with (perform (IsCurrentlyRateLimited now')
            (performAll (map TimerTick ticks) w)).
  change (snd (isCurrentlyRateLimited now' w))
    with (perform (IsCurrentlyRateLimited now') w).
  rewrite !isCurrentlyRateLimited_answer, !perform_stored, performAll_stored.
  destruct (stored w) as [st|]; cbn [fmap option_fmap option_map].
  - revert st. induction Hticks as [|t rest Ht _ IH]; intros st.
    + cbn [map foldl fmap option_fmap option_map stateAfter].
      unfold sameCounters. repeat split.
    + cbn [map foldl fmap option_fmap option_map].
      change (stateAfter (TimerTick t) st) with (reconciled t st).
      destruct (IH (reconciled t st)) as [Hans Hst].
      destruct (foldl (λ o call, stateAfter call <$> o)
                  (Some (reconciled t st)) (map TimerTick rest))
        as [st1|]; cbn [fmap option_fmap option_map stateAfter] in *;
        [|destruct Hst].
      pose proof (reconciled_after_earlier t now' st Ht) as Hsame.
      split.
      * rewrite Hans, (sameCounters_usage _ _ Hsame). reflexivity.
      * destruct Hst as [Hc Hm]. split.
        -- unfold sameCounters in *. intuition congruence.
        -- rewrite Hm. reflexivity.
  - assert (Hnone : foldl (λ o call, stateAfter call <$> o) None
                      (map TimerTick ticks) = None).
    { clear Hticks. induction ticks as [|t rest IH]; [reflexivity|exact IH]. }
    rewrite Hnone. cbn [fmap option_fmap option_map]. auto.
Qed.

Lemma timer_ticks_do_not_change_admission_witness :
  fst (isCurrentlyRateLimited (H:=utcCalendar) 86400500
         (performAll (H:=utcCalendar)
            (map TimerTick [5000; 10000; 86400000])
            (worldOf dayBreachedState))) =
  fst (isCurrentlyRateLimited (H:=utcCalendar) 86400500
         (worldOf dayBreachedState)).
Proof.
  apply (timer_ticks_do_not_change_admission (H:=utcCalendar)
           [5000; 10000; 86400000] 86400500 (worldOf dayBreachedState)).
  repeat (apply Forall_cons; split; [lia|]). apply Forall_nil. exact I.
Defined.

(** ** Recording against the ceilings *)

(** Larger counters stay limited, against any value the catalog returns. *)
Lemma isRateLimited_monotone (usage usage' : Usage) (limits : JSValue) :
  u_tokensUsedThisMinute usage <= u_tokensUsedThisMinute usage' →
  u_tokensUsedToday usage <= u_tokensUsedToday usage' →
  u_requestsUsedThisMinute usage <= u_requestsUsedThisMinute usage' →
  u_requestsUsedToday usage <= u_requestsUsedToday usage' →
  isRateLimited usage limits = true → isRateLimited usage' limits = true.
Proof.
  intros H1 H2 H3 H4. unfold isRateLimited, js_ge.
  destruct limits as [l|key]; simpl; [|discriminate].
  rewrite !orb_true_iff, !Z.leb_le. lia.
Qed.

(** X5. While both windows of the stored state are open, a report of a
    token count that is not negative never lifts a limit: if
    [isCurrentlyRateLimited] is true before [recordUsage], it is true after
    it. *)
Theorem recordUsage_keeps_limit `{LocalCalendar}
    (p c t now1 now2 : Z) (w : World) (st : GroqUsageState) :
  stored w = Some st →
  now1 < minuteResetAt st → now1 < dayResetAt st →
  now2 < minuteResetAt st → now2 < dayResetAt st →
  0 <= t →
  fst (isCurrentlyRateLimited now1 w) = true →
  fst (isCurrentlyRateLimited now2 (snd (recordUsage p c t now1 w))) = true.
Proof.
  intros Hst Hm1 Hd1 Hm2 Hd2 Ht.
  change (snd (recordUsage p c t now1 w))
    with (perform (RecordUsage p c t now1) w).
  rewrite !isCurrentlyRateLimited_answer, perform_stored, Hst.
  cbn [fmap option_fmap option_map stateAfter].
  rewrite (reconciled_live_id now1 st Hm1 Hd1).
  rewrite reconciled_live_id by (simpl; assumption).
  cbn [model]. apply isRateLimited_monotone; simpl; lia.
Qed.

Lemma recordUsage_keeps_limit_witness :
  fst (isCurrentlyRateLimited (H:=utcCalendar) 1000
         (worldOf minuteBreachedState)) = true ∧
  fst (isCurrentlyRateLimited (H:=utcCalendar) 2000
         (snd (recordUsage (H:=utcCalendar) 7 5 12 1000
                 (worldOf minuteBreachedState)))) = true.
Proof.
  split; [vm_compute; reflexivity|].
  apply (recordUsage_keeps_limit (H:=utcCalendar) 7 5 12 1000 2000
           (worldOf minuteBreachedState) minuteBreachedState);
    [reflexivity | simpl; lia .. | vm_compute; reflexivity].
Defined.

(** ** A fresh tracker *)

(** X6. The state [initializeUsageState] creates on an empty store is not
    rate limited, at whatever instant the question is asked, and the wait
    read from it at the instant of its creation is at most 60 s. *)
Theorem fresh_state_is_admitted `{LocalCalendar} (now now' : Z) (w : World) :
  stored w = None →
  fst (isCurrentlyRateLimited now' (snd (initializeUsageState now w)))
    = false ∧
  fst (getSecondsUntilNextReset now (snd (initializeUsageState now w))) <= 60.
Proof.
  intros Hst.
  pose proof (proj1 (initialize_fresh_reload_idempotent_aux now w) Hst)
    as Hfresh.
  split.
  - rewrite isCurrentlyRateLimited_answer, Hfresh. cbn [model].
    replace (fst (getLimitsForModel "llama-3.3-70b-versatile"))
      with (JSLimits (mkLimits 30 14400 6000 500000))
      by (vm_compute; reflexivity).
    apply isRateLimited_false_iff.
    apply reconciled_below; unfold below; simpl; lia.
  - rewrite getSecondsUntilNextReset_run, Hfresh.
    unfold getSecondsUntilReset; cbn [fst minuteResetAt dayResetAt].
    pose proof (ceil_div_1000_spec (now + 60000 - now)). lia.
Qed.

Lemma fresh_state_is_admitted_witness :
  fst (isCurrentlyRateLimited (H:=utcCalendar) 90000000
         (snd (initializeUsageState (H:=utcCalendar) 1000 emptyWorld)))
    = false ∧
  fst (getSecondsUntilNextReset 1000
         (snd (initializeUsageState (H:=utcCalendar) 1000 emptyWorld)))
    <= 60.
Proof.
  apply (fresh_state_is_admitted (H:=utcCalendar) 1000 90000000 emptyWorld).
  reflexivity.
Defined.

(** ** The limits shown and the limits enforced *)

(** X7. [getCurrentLimits] returns, for every stored state, the value that
    [isCurrentlyRateLimited] and [enforceLimitsAndWaitIfNeeded] test the
    counters against, the empty model name included; with no stored state
    it returns the entry of ["llama-3.3-70b-versatile"].  It never writes
    to the store. *)
Theorem getCurrentLimits_are_enforced_limits (w : World) :
  (∀ st, stored w = Some st →
     fst (getCurrentLimits w) = fst (getLimitsForModel (model st))) ∧
  (stored w = None →
     fst (getCurrentLimits w) = JSLimits (mkLimits 30 14400 6000 500000)) ∧
  globalState (snd (getCurrentLimits w)) = globalState w.
Proof.
  rewrite getCurrentLimits_run. cbn [fst snd globalState].
  split; [|split; [|reflexivity]].
  - intros st ->. destruct (bool_decide (model st = "")) eqn:Hempty;
      [|reflexivity].
    apply bool_decide_eq_true_1 in Hempty. rewrite Hempty.
    vm_compute; reflexivity.
  - intros ->. vm_compute; reflexivity.
Qed.

Lemma getCurrentLimits_are_enforced_limits_witness :
  fst (getCurrentLimits (worldOf (mkState "" 1 2 3 4 60000 86400000))) =
    fst (getLimitsForModel "") ∧
  fst (getCurrentLimits (worldOf liveState)) =
    fst (getLimitsForModel "gemma-7b-it") ∧
  fst (getCurrentLimits emptyWorld) =
    JSLimits (mkLimits 30 14400 6000 500000).
Proof.
  split; [|split].
  - exact (proj1 (getCurrentLimits_are_enforced_limits
                    (worldOf (mkState "" 1 2 3 4 60000 86400000)))
             (mkState "" 1 2 3 4 60000 86400000) eq_refl).
  - exact (proj1 (getCurrentLimits_are_enforced_limits (worldOf liveState))
             liveState eq_refl).
  - exact (proj1 (proj2 (getCurrentLimits_are_enforced_limits emptyWorld))
             eq_refl).
Defined.

(** ** Notifications of the reset rule *)

(** X8. [checkAndResetCounters] writes the store and calls the update
    callbacks once when at least one window of the stored state is over
    (once, also when both are); when no window is over or nothing is
    stored it leaves the world exactly as it was. *)
Theorem observers_notified_exactly_on_reset `{LocalCalendar}
    (now : Z) (w : World) :
  let windowOver :=
    match stored w with
    | Some st => (minuteResetAt st <=? now) || (dayResetAt st <=? now)
    | None => false
    end in
  trace (snd (checkAndResetCounters now w)) =
    trace w ++ (if windowOver then [NotifyUpdates] else []) ∧
  (windowOver = false → checkAndResetCounters now w = (tt, w)).
Proof.
  destruct (stored w) as [st|] eqn:Hst; cbn zeta.
  - rewrite (checkAndResetCounters_run now w st Hst).
    destruct (_ || _); cbn [snd trace].
    + split; [reflexivity | discriminate].
    + rewrite app_nil_r. split; reflexivity.
  - rewrite (checkAndResetCounters_absent now w Hst).
    rewrite app_nil_r. split; reflexivity.
Qed.

Lemma observers_notified_exactly_on_reset_witness :
  trace (snd (checkAndResetCounters (H:=utcCalendar) 90000000
                (worldOf staleMinuteState))) = [NotifyUpdates] ∧
  checkAndResetCounters (H:=utcCalendar) 1000 (worldOf liveState) =
    (tt, worldOf liveState).
Proof.
  split.
  - exact (proj1 (observers_notified_exactly_on_reset (H:=utcCalendar)
                    90000000 (worldOf staleMinuteState))).
  - apply (proj2 (observers_notified_exactly_on_reset (H:=utcCalendar)
                    1000 (worldOf liveState))).
    reflexivity.
Defined.

(** ** Size of the wait *)

(** X9. [getSecondsUntilReset] is 0 exactly when one of the two reset
    timestamps is not after [now].  When both are after [now] the wait is
    positive and ends at or after the earlier timestamp, less than one
    second after it. *)
Theorem wait_is_zero_iff_window_over (now m d : Z) :
  (getSecondsUntilReset now m d = 0 ↔ m <= now ∨ d <= now) ∧
  (now < m → now < d →
     0 < getSecondsUntilReset now m d ∧
     Z.min m d <= now + 1000 * getSecondsUntilReset now m d
       < Z.min m d + 1000).
Proof.
  unfold getSecondsUntilReset.
  pose proof (ceil_div_1000_spec (m - now)).
  pose proof (ceil_div_1000_spec (d - now)). lia.
Qed.

Lemma wait_is_zero_iff_window_over_witness :
  getSecondsUntilReset 300000 0 86400000 = 0 ∧
  0 < getSecondsUntilReset 1 10000 86400000 ∧
  10000 <= 1 + 1000 * getSecondsUntilReset 1 10000 86400000 < 11000.
Proof.
  split.
  - apply (proj1 (wait_is_zero_iff_window_over 300000 0 86400000)).
    left; lia.
  - apply (proj2 (wait_is_zero_iff_window_over 1 10000 86400000)); lia.
Defined.

(** X10. The minute window never reaches further than 60 s ahead: the
    state [initializeUsageState] creates at [now] has [minuteResetAt] at
    most [now + 60000], and a state that has this bound at [now] has it at
    every later instant [now'] after the reset rule, so that
    [getSecondsUntilNextReset] is then at most 60. *)
Theorem minute_window_at_most_60s `{LocalCalendar}
    (now now' : Z) (w : World) :
  (stored w = None →
     ∃ st0, stored (snd (initializeUsageState now w)) = Some st0 ∧
       minuteResetAt st0 <= now + 60000) ∧
  (∀ st, stored w = Some st →
     minuteResetAt st <= now + 60000 → now <= now' →
     ∃ st', stored (snd (checkAndResetCounters now' w)) = Some st' ∧
       minuteResetAt st' <= now' + 60000 ∧
       fst (getSecondsUntilNextReset now'
              (snd (checkAndResetCounters now' w))) <= 60).
Proof.
  split.
  - intros Hst. eexists. split;
      [apply (proj1 (initialize_fresh_reload_idempotent_aux now w) Hst)|].
    simpl. lia.
  - intros st Hst Hbound Hle.
    pose proof (checkAndResetCounters_stored now' w st Hst) as Hrec.
    exists (reconciled now' st). split; [exact Hrec|].
    assert (Hm : minuteResetAt (reconciled now' st) <= now' + 60000).
    { unfold reconciled; simpl.
      destruct (minuteResetAt st <=? now'); lia. }
    split; [exact Hm|].
    rewrite getSecondsUntilNextReset_run, Hrec. cbn [fst].
    unfold getSecondsUntilReset.
    pose proof (ceil_div_1000_spec
                  (minuteResetAt (reconciled now' st) - now')). lia.
Qed.

Lemma minute_window_at_most_60s_witness :
  ∃ st', stored (snd (checkAndResetCounters (H:=utcCalendar) 300000
                         (worldOf staleMinuteState))) = Some st' ∧
    minuteResetAt st' <= 300000 + 60000 ∧
    fst (getSecondsUntilNextReset 300000
           (snd (checkAndResetCounters (H:=utcCalendar) 300000
                   (worldOf staleMinuteState)))) <= 60.
Proof.
  apply (proj2 (minute_window_at_most_60s (H:=utcCalendar) 0 300000
                  (worldOf staleMinuteState)) staleMinuteState);
    [reflexivity | simpl; lia | lia].
Defined.

(** ** The waiting wrapper, in terms of the admission test *)




(** * The key store *)

Section ApiKey.
Import ApiKeyManager.

Lemma trimEnd_keep (c : N) (rest : list N) :
  isWhiteSpace c = false → trimEnd (c :: rest) = c :: trimEnd rest.
Proof.
  intros Hc. cbn [trimEnd]. rewrite Hc. destruct (trimEnd rest); reflexivity.
Qed.

Lemma trimEnd_idempotent (s : list N) : trimEnd (trimEnd s) = trimEnd s.
Proof.
  induction s as [|c rest IH]; [reflexivity|]. cbn [trimEnd].
  destruct (trimEnd rest) as [|k kept] eqn:Hrest.
  - destruct (isWhiteSpace c) eqn:Hc; [reflexivity|].
    cbn [trimEnd]. rewrite Hc. reflexivity.
  - cbn [trimEnd]. cbn [trimEnd] in IH. rewrite IH. reflexivity.
Qed.

Lemma trimStart_cases (s : list N) :
  trimStart s = [] ∨
  ∃ c rest, trimStart s = c :: rest ∧ isWhiteSpace c = false.
Proof.
  induction s as [|c rest IH]; [left; reflexivity|]. cbn [trimStart].
  destruct (isWhiteSpace c) eqn:Hc; [exact IH|].
  right. exists c, rest. split; [reflexivity | exact Hc].
Qed.

Lemma trim_idempotent (s : list N) : trim (trim s) = trim s.
Proof.
  unfold trim. destruct (trimStart_cases s) as [-> | (c & rest & -> & Hc)];
    [reflexivity|].
  rewrite (trimEnd_keep c rest Hc). cbn [trimStart]. rewrite Hc.
  rewrite (trimEnd_keep c _ Hc), trimEnd_idempotent. reflexivity.
Qed.

Lemma validateApiKey_true (k : list N) :
  validateApiKey k = true ↔
  isEmpty k = false ∧ isEmpty (trim k) = false ∧ (20 <= length k)%nat.
Proof.
  unfold validateApiKey.
  destruct (isEmpty k), (isEmpty (trim k)); simpl;
    try (split; [discriminate | intros (? & ? & ?); discriminate]).
  destruct (length k <? 20)%nat eqn:Hlen.
  - apply Nat.ltb_lt in Hlen. split; [discriminate|]. intros (_ & _ & ?). lia.
  - apply Nat.ltb_ge in Hlen. split; auto.
Qed.

End ApiKey.

(** X12. [saveApiKey] returns exactly for the keys [validateApiKey]
    accepts, and throws for the others without touching the secrets; in
    both cases every other secret keeps its value. *)
Theorem saveApiKey_returns_iff_valid
    (apiKey : list N) (secrets : gmap string (list N)) :
  (fst (ApiKeyManager.saveApiKey apiKey secrets) = ApiKeyManager.Returned tt
     ↔ ApiKeyManager.validateApiKey apiKey = true) ∧
  (ApiKeyManager.validateApiKey apiKey = false →
     snd (ApiKeyManager.saveApiKey apiKey secrets) = secrets) ∧
  (∀ name : string, name ≠ ApiKeyManager.SECRET_KEY →
     snd (ApiKeyManager.saveApiKey apiKey secrets) !! name
       = secrets !! name).
Proof.
  unfold ApiKeyManager.saveApiKey, ApiKeyManager.validateApiKey.
  destruct (ApiKeyManager.isEmpty apiKey
            || ApiKeyManager.isEmpty (ApiKeyManager.trim apiKey)); simpl.
  - repeat split; try discriminate; reflexivity.
  - destruct (length apiKey <? 20)%nat; simpl.
    + repeat split; try discriminate; reflexivity.
    + repeat split; try discriminate.
      intros name Hname. apply lookup_insert_ne. congruence.
Qed.

(** A key of 24 code units is stored; one of 5 is refused. *)
Lemma saveApiKey_returns_iff_valid_witness :
  fst (ApiKeyManager.saveApiKey
         (ApiKeyManager.lit "gsk_0123456789abcdefghij") ∅)
    = ApiKeyManager.Returned tt ∧
  snd (ApiKeyManager.saveApiKey (ApiKeyManager.lit "gsk_0")
         {[ "other" := ApiKeyManager.lit "x" ]})
    = {[ "other" := ApiKeyManager.lit "x" ]}.
Proof.
  split.
  - apply (proj1 (saveApiKey_returns_iff_valid
                    (ApiKeyManager.lit "gsk_0123456789abcdefghij") ∅)).
    vm_compute; reflexivity.
  - apply (proj1 (proj2 (saveApiKey_returns_iff_valid
                    (ApiKeyManager.lit "gsk_0")
                    {[ "other" := ApiKeyManager.lit "x" ]}))).
    vm_compute; reflexivity.
Defined.

Lemma saved_key_is_found_aux
    (apiKey : list N) (secrets : gmap string (list N)) :
  ApiKeyManager.validateApiKey apiKey = true →
  ApiKeyManager.getApiKey (snd (ApiKeyManager.saveApiKey apiKey secrets))
    = Some (ApiKeyManager.trim apiKey) ∧
  (20 <= length apiKey)%nat.
Proof.
  intros Hvalid. pose proof (proj1 (validateApiKey_true apiKey) Hvalid)
    as (Hne & Htrim & Hlen).
  unfold ApiKeyManager.saveApiKey. rewrite Hne, Htrim.
  rewrite (proj2 (Nat.ltb_ge _ _) Hlen). cbn [orb snd].
  split; [apply lookup_insert_eq | exact Hlen].
Qed.

(** X13. After [saveApiKey] has accepted a key, [getApiKey] returns the
    key without its surrounding white space, which is not empty and which
    a second trim leaves as it is, and [hasApiKey] is true. *)
Theorem saved_key_is_found
    (apiKey : list N) (secrets : gmap string (list N)) :
  ApiKeyManager.validateApiKey apiKey = true →
  let secrets' := snd (ApiKeyManager.saveApiKey apiKey secrets) in
  ApiKeyManager.getApiKey secrets' = Some (ApiKeyManager.trim apiKey) ∧
  ApiKeyManager.trim apiKey ≠ [] ∧
  ApiKeyManager.trim (ApiKeyManager.trim apiKey)
    = ApiKeyManager.trim apiKey ∧
  ApiKeyManager.hasApiKey secrets' = true.
Proof.
  intros Hvalid. pose proof (proj1 (validateApiKey_true apiKey) Hvalid)
    as (Hne & Htrim & Hlen).
  unfold ApiKeyManager.saveApiKey. rewrite Hne, Htrim.
  rewrite (proj2 (Nat.ltb_ge _ _) Hlen). cbn [orb snd].
  assert (Hget : ApiKeyManager.getApiKey
                   (<[ApiKeyManager.SECRET_KEY :=
                        ApiKeyManager.trim apiKey]> secrets)
                 = Some (ApiKeyManager.trim apiKey)).
  { apply lookup_insert_eq. }
  split; [exact Hget|]. split; [|split].
  - intros Hnil. rewrite Hnil in Htrim. discriminate Htrim.
  - apply trim_idempotent.
  - unfold ApiKeyManager.hasApiKey. rewrite Hget, trim_idempotent, Htrim.
    reflexivity.
Qed.

(** The key is stored without the blanks typed around it. *)
Lemma saved_key_is_found_witness :
  ApiKeyManager.getApiKey
    (snd (ApiKeyManager.saveApiKey
            (ApiKeyManager.lit "  gsk_0123456789abcdefghij ") ∅))
    = Some (ApiKeyManager.lit "gsk_0123456789abcdefghij") ∧
  ApiKeyManager.hasApiKey
    (snd (ApiKeyManager.saveApiKey
            (ApiKeyManager.lit "  gsk_0123456789abcdefghij ") ∅)) = true.
Proof.
  destruct (saved_key_is_found
              (ApiKeyManager.lit "  gsk_0123456789abcdefghij ") ∅)
    as (Hget & _ & _ & Hhas); [vm_compute; reflexivity|].
  split; [exact Hget | exact Hhas].
Defined.

(** X14. After [deleteApiKey] no key is found, [hasApiKey] is false and
    the masked key is the text "Not set", whatever was stored before;
    every other secret keeps its value. *)
Theorem deleted_key_is_gone (secrets : gmap string (list N)) :
  ApiKeyManager.getApiKey (ApiKeyManager.deleteApiKey secrets) = None ∧
  ApiKeyManager.hasApiKey (ApiKeyManager.deleteApiKey secrets) = false ∧
  ApiKeyManager.getMaskedApiKey (ApiKeyManager.deleteApiKey secrets)
    = ApiKeyManager.lit "Not set" ∧
  (∀ name : string, name ≠ ApiKeyManager.SECRET_KEY →
     ApiKeyManager.deleteApiKey secrets !! name = secrets !! name).
Proof.
  assert (Hget : ApiKeyManager.getApiKey (ApiKeyManager.deleteApiKey secrets)
                 = None) by apply lookup_delete_eq.
  unfold ApiKeyManager.hasApiKey, ApiKeyManager.getMaskedApiKey.
  rewrite Hget. repeat split.
  intros name Hname. apply lookup_delete_ne. congruence.
Qed.

Lemma deleted_key_is_gone_witness :
  ApiKeyManager.deleteApiKey
    (<["other" := ApiKeyManager.lit "x"]>
       (snd (ApiKeyManager.saveApiKey
               (ApiKeyManager.lit "gsk_0123456789abcdefghij") ∅)))
    !! "other" = Some (ApiKeyManager.lit "x").
Proof.
  rewrite (proj2 (proj2 (proj2 (deleted_key_is_gone _))) "other");
    [reflexivity | discriminate].
Defined.

(** X15. The masked key has at most 15 code units.  For a key that
    [saveApiKey] accepted as it was typed (no white space around it) the
    mask is its first 8 code units, three dots and its last 4 code units:
    15 code units that leave at least 8 code units of the key out. *)
Theorem masked_key_hides_the_middle
    (apiKey : list N) (secrets : gmap string (list N)) :
  (length (ApiKeyManager.getMaskedApiKey secrets) <= 15)%nat ∧
  (ApiKeyManager.validateApiKey apiKey = true →
   ApiKeyManager.trim apiKey = apiKey →
   let masked :=
     ApiKeyManager.getMaskedApiKey
       (snd (ApiKeyManager.saveApiKey apiKey secrets)) in
   masked = take 8 apiKey ++ ApiKeyManager.lit "..."
              ++ drop (length apiKey - 4) apiKey ∧
   length masked = 15%nat ∧
   (8 <= length apiKey - 12)%nat).
Proof.
  split.
  - unfold ApiKeyManager.getMaskedApiKey.
    destruct (ApiKeyManager.getApiKey secrets) as [key|]; [|simpl; lia].
    destruct (ApiKeyManager.isEmpty key); [simpl; lia|].
    destruct (12 <? length key)%nat eqn:Hlen; [|simpl; lia].
    apply Nat.ltb_lt in Hlen.
    rewrite !length_app, length_take, length_drop.
    change (length (ApiKeyManager.lit "...")) with 3%nat. lia.
  - intros Hvalid Htrim.
    destruct (saved_key_is_found_aux apiKey secrets Hvalid) as [Hget Hlen].
    cbn zeta. unfold ApiKeyManager.getMaskedApiKey. rewrite Hget, Htrim.
    destruct apiKey as [|c rest]; [simpl in Hlen; lia|]. cbn [ApiKeyManager.isEmpty].
    rewrite (proj2 (Nat.ltb_lt 12 (length (c :: rest))) ltac:(lia)).
    split; [reflexivity|]. split; [|lia].
    rewrite !length_app, length_take, length_drop.
    change (length (ApiKeyManager.lit "...")) with 3%nat. lia.
Qed.

Lemma masked_key_hides_the_middle_witness :
  ApiKeyManager.getMaskedApiKey
    (snd (ApiKeyManager.saveApiKey
            (ApiKeyManager.lit "gsk_0123456789abcdefghij") ∅))
    = ApiKeyManager.lit "gsk_0123...ghij".
Proof.
  destruct (proj2 (masked_key_hides_the_middle
                     (ApiKeyManager.lit "gsk_0123456789abcdefghij") ∅))
    as (Hmask & _ & _); [vm_compute; reflexivity .. |].
  exact Hmask.
Defined.

(** * The monthly tally *)

Section Monthly.
Import UsageManager.

Ltac run_usage :=
  unfold updateUsage, initialize, loadUsage, saveUsage, resetUsage,
    tryCatch, bind, ret, throw, writeFileSync, mkdirSync, consoleError,
    emptyUsage, dirExists, fileExists; cbn.

Lemma updateUsage_run (cm : string) (u : Update) (disk : Disk) :
  updateUsage cm (u_prompt u) (u_completion u) (u_total u) disk =
    (Done tt,
     if dirExists disk && writable disk
     then mkDisk (Saved (tallied cm u (usageFile disk))) true
            (errorLog disk ++
               match usageFile disk with
               | Unparsable => ["Error loading usage data:"]
               | _ => []
               end)
     else mkDisk (usageFile disk) (writable disk)
            (errorLog disk ++
               match usageFile disk with
               | Unparsable => ["Error loading usage data:"]
               | _ => []
               end ++ ["Error updating usage:"])).
Proof.
  assert (Hself : bool_decide (cm ≠ cm) = false).
  { apply bool_decide_eq_false_2. intros Hc. apply Hc. reflexivity. }
  destruct disk as [file w log], u as [p c t].
  destruct file as [| | |[m tot pr co]].
  1-3: destruct w; run_usage; rewrite ?Hself; cbn;
       rewrite ?app_nil_r, <- ?app_assoc; reflexivity.
  destruct (decide (m = cm)) as [Hm|Hm].
  - subst m.
    destruct w; run_usage; rewrite ?Hself; cbn;
      rewrite ?(bool_decide_eq_true_2 (cm = cm)) by reflexivity;
      rewrite ?app_nil_r; reflexivity.
  - destruct w; run_usage;
      rewrite ?(bool_decide_eq_true_2 (m ≠ cm)) by exact Hm;
      cbn; rewrite ?Hself; cbn;
      rewrite ?(bool_decide_eq_false_2 (m = cm)) by exact Hm;
      rewrite ?app_nil_r; reflexivity.
Qed.

End Monthly.

(** X16. [updateUsage] never throws: every failure inside it is caught
    and logged.  When the file cannot be written (no directory, or a disk
    that is not writable) the file stays as it was and the message
    "Error updating usage:" is logged. *)
Theorem updateUsage_never_throws
    (cm : string) (p c t : Z) (disk : UsageManager.Disk) :
  fst (UsageManager.updateUsage cm p c t disk) = UsageManager.Done tt ∧
  (UsageManager.dirExists disk && UsageManager.writable disk = false →
     UsageManager.usageFile (snd (UsageManager.updateUsage cm p c t disk))
       = UsageManager.usageFile disk ∧
     "Error updating usage:" ∈
       UsageManager.errorLog (snd (UsageManager.updateUsage cm p c t disk))).
Proof.
  pose proof (updateUsage_run cm (UsageManager.mkUpdate p c t) disk) as Hrun.
  cbn [UsageManager.u_prompt UsageManager.u_completion UsageManager.u_total]
    in Hrun.
  rewrite Hrun. cbn [fst snd]. split; [reflexivity|].
  intros ->. cbn [UsageManager.usageFile UsageManager.errorLog].
  split; [reflexivity|]. rewrite !elem_of_app. right; right.
  apply list_elem_of_singleton. reflexivity.
Qed.

Lemma updateUsage_never_throws_witness :
  UsageManager.usageFile
    (snd (UsageManager.updateUsage "2026-11" 7 5 12
            (UsageManager.mkDisk
               (UsageManager.Saved
                  (UsageManager.mkUsageData "2026-11" 100 60 40))
               false []))) =
    UsageManager.Saved (UsageManager.mkUsageData "2026-11" 100 60 40) ∧
  "Error updating usage:" ∈
    UsageManager.errorLog
      (snd (UsageManager.updateUsage "2026-11" 7 5 12
              (UsageManager.mkDisk
                 (UsageManager.Saved
                    (UsageManager.mkUsageData "2026-11" 100 60 40))
                 false []))).
Proof.
  apply (proj2 (updateUsage_never_throws "2026-11" 7 5 12
                  (UsageManager.mkDisk
                     (UsageManager.Saved
                        (UsageManager.mkUsageData "2026-11" 100 60 40))
                     false []))).
  reflexivity.
Defined.

(** X17. On a file it can write, [updateUsage] adds the three reported
    counts to the saved ones when the saved month is [currentMonth]; when
    the file is absent, unparsable or of another month it starts over from
    the reported counts alone.  In both cases the month saved is
    [currentMonth]. *)
Theorem updateUsage_tallies_or_starts_over
    (cm : string) (p c t : Z) (disk : UsageManager.Disk) :
  UsageManager.dirExists disk = true →
  UsageManager.writable disk = true →
  let file' :=
    UsageManager.usageFile (snd (UsageManager.updateUsage cm p c t disk)) in
  (∀ d, UsageManager.usageFile disk = UsageManager.Saved d →
     UsageManager.month d = cm →
     file' = UsageManager.Saved
               (UsageManager.mkUsageData cm
                  (UsageManager.totalUsed d + t)
                  (UsageManager.promptUsed d + p)
                  (UsageManager.completionUsed d + c))) ∧
  ((∀ d, UsageManager.usageFile disk = UsageManager.Saved d →
      UsageManager.month d ≠ cm) →
     file' = UsageManager.Saved (UsageManager.mkUsageData cm t p c)) ∧
  (∃ d', file' = UsageManager.Saved d' ∧ UsageManager.month d' = cm).
Proof.
  intros Hdir Hw.
  pose proof (updateUsage_run cm (UsageManager.mkUpdate p c t) disk) as Hrun.
  cbn [UsageManager.u_prompt UsageManager.u_completion UsageManager.u_total]
    in Hrun.
  cbn zeta. rewrite Hrun, Hdir, Hw. cbn [andb snd UsageManager.usageFile].
  split; [|split].
  - intros d -> Hm. unfold tallied.
    rewrite bool_decide_eq_true_2 by exact Hm. reflexivity.
  - intros Hother. unfold tallied.
    destruct (UsageManager.usageFile disk) as [| | |d]; try reflexivity.
    rewrite bool_decide_eq_false_2 by (apply Hother; reflexivity).
    reflexivity.
  - eexists. split; [reflexivity|]. unfold tallied.
    destruct (UsageManager.usageFile disk) as [| | |d]; try reflexivity.
    destruct (bool_decide _); reflexivity.
Qed.

Lemma updateUsage_tallies_or_starts_over_witness :
  UsageManager.usageFile
    (snd (UsageManager.updateUsage "2026-11" 7 5 12
            (UsageManager.mkDisk
               (UsageManager.Saved
                  (UsageManager.mkUsageData "2026-11" 100 60 40))
               true []))) =
    UsageManager.Saved (UsageManager.mkUsageData "2026-11" 112 67 45) ∧
  UsageManager.usageFile
    (snd (UsageManager.updateUsage "2026-11" 7 5 12
            (UsageManager.mkDisk
               (UsageManager.Saved
                  (UsageManager.mkUsageData "2026-10" 100 60 40))
               true []))) =
    UsageManager.Saved (UsageManager.mkUsageData "2026-11" 12 7 5).
Proof.
  split.
  - apply (proj1 (updateUsage_tallies_or_starts_over "2026-11" 7 5 12
                    (UsageManager.mkDisk
                       (UsageManager.Saved
                          (UsageManager.mkUsageData "2026-11" 100 60 40))
                       true []) eq_refl eq_refl)
             (UsageManager.mkUsageData "2026-11" 100 60 40));
      reflexivity.
  - apply (proj1 (proj2 (updateUsage_tallies_or_starts_over "2026-11" 7 5 12
                    (UsageManager.mkDisk
                       (UsageManager.Saved
                          (UsageManager.mkUsageData "2026-10" 100 60 40))
                       true []) eq_refl eq_refl))).
    intros d [= <-]. discriminate.
Defined.

Ltac run_initialize :=
  unfold UsageManager.initialize, UsageManager.loadUsage,
    UsageManager.saveUsage, UsageManager.resetUsage,
    UsageManager.tryCatch, UsageManager.bind, UsageManager.ret,
    UsageManager.throw, UsageManager.writeFileSync,
    UsageManager.mkdirSync, UsageManager.consoleError,
    UsageManager.emptyUsage, UsageManager.dirExists,
    UsageManager.fileExists; cbn.

(** X18. On a writable disk [initialize] returns and leaves a saved tally
    of [currentMonth]: the saved one when its month is [currentMonth], an
    empty one when the file was absent or of another month; an unparsable
    file is left as it is.  A tally of [currentMonth] is kept on any disk,
    writable or not, and a second [initialize] changes nothing in the
    file. *)
Theorem initialize_keeps_current_month
    (cm : string) (disk : UsageManager.Disk) :
  let disk' := snd (UsageManager.initialize cm disk) in
  (UsageManager.writable disk = true →
     fst (UsageManager.initialize cm disk) = UsageManager.Done tt ∧
     UsageManager.usageFile disk' =
       match UsageManager.usageFile disk with
       | UsageManager.Saved d =>
           if bool_decide (UsageManager.month d = cm)
           then UsageManager.Saved d
           else UsageManager.Saved (UsageManager.emptyUsage cm)
       | UsageManager.Unparsable => UsageManager.Unparsable
       | _ => UsageManager.Saved (UsageManager.emptyUsage cm)
       end) ∧
  (∀ d, UsageManager.usageFile disk = UsageManager.Saved d →
     UsageManager.month d = cm →
     UsageManager.initialize cm disk = (UsageManager.Done tt, disk)) ∧
  UsageManager.usageFile (snd (UsageManager.initialize cm disk'))
    = UsageManager.usageFile disk'.
Proof.
  assert (Hself : bool_decide (cm ≠ cm) = false).
  { apply bool_decide_eq_false_2. intros Hc. apply Hc. reflexivity. }
  assert (Hsame : bool_decide (cm = cm) = true).
  { apply bool_decide_eq_true_2. reflexivity. }
  destruct disk as [file w log]. cbn zeta.
  destruct file as [| | |[m tot pr co]].
  1-3: destruct w; run_initialize;
       repeat (progress (rewrite ?Hself, ?Hsame); cbn);
       (split; [intros Hw; try discriminate Hw; split; reflexivity|]);
       (split; [intros d Hd; discriminate Hd | reflexivity]).
  destruct (decide (m = cm)) as [Hm|Hm].
  - subst m. destruct w; run_initialize;
      repeat (progress (rewrite ?Hself, ?Hsame); cbn);
      (split; [intros Hw; try discriminate Hw; split; reflexivity|]);
      (split; [intros d Hd Hmd; reflexivity | reflexivity]).
  - assert (Hne : bool_decide (m ≠ cm) = true)
      by (apply bool_decide_eq_true_2; exact Hm).
    assert (Hne' : bool_decide (m = cm) = false)
      by (apply bool_decide_eq_false_2; exact Hm).
    destruct w; run_initialize;
      repeat (progress (rewrite ?Hself, ?Hsame, ?Hne, ?Hne'); cbn);
      (split; [intros Hw; try discriminate Hw; split; reflexivity|]);
      (split; [intros d Hd Hmd; inversion Hd; subst d; cbn in Hmd;
               destruct (Hm Hmd) | reflexivity]).
Qed.

Lemma initialize_keeps_current_month_witness :
  UsageManager.usageFile
    (snd (UsageManager.initialize "2026-11"
            (UsageManager.mkDisk UsageManager.NoDirectory true []))) =
    UsageManager.Saved (UsageManager.mkUsageData "2026-11" 0 0 0) ∧
  UsageManager.initialize "2026-11"
    (UsageManager.mkDisk
       (UsageManager.Saved (UsageManager.mkUsageData "2026-11" 100 60 40))
       false []) =
    (UsageManager.Done tt,
     UsageManager.mkDisk
       (UsageManager.Saved (UsageManager.mkUsageData "2026-11" 100 60 40))
       false []).
Proof.
  split.
  - exact (proj2 (proj1 (initialize_keeps_current_month "2026-11"
                    (UsageManager.mkDisk UsageManager.NoDirectory true []))
                  eq_refl)).
  - exact (proj1 (proj2 (initialize_keeps_current_month "2026-11"
                    (UsageManager.mkDisk
                       (UsageManager.Saved
                          (UsageManager.mkUsageData "2026-11" 100 60 40))
                       false [])))
             (UsageManager.mkUsageData "2026-11" 100 60 40)
             eq_refl eq_refl).
Defined.

Lemma updateAll_cons (cm : string) (u : UsageManager.Update)
    (rest : list UsageManager.Update) (disk : UsageManager.Disk) :
  UsageManager.updateAll cm (u :: rest) disk =
    UsageManager.updateAll cm rest
      (snd (UsageManager.updateUsage cm (UsageManager.u_prompt u)
              (UsageManager.u_completion u) (UsageManager.u_total u) disk)).
Proof. reflexivity. Qed.

Lemma updateAll_from_current_month (cm : string)
    (updates : list UsageManager.Update) :
  ∀ (disk : UsageManager.Disk) (d : UsageManager.UsageData),
    UsageManager.writable disk = true →
    UsageManager.usageFile disk = UsageManager.Saved d →
    UsageManager.month d = cm →
    UsageManager.usageFile (UsageManager.updateAll cm updates disk) =
      UsageManager.Saved
        (UsageManager.mkUsageData cm
           (UsageManager.totalUsed d
              + sumOver UsageManager.u_total updates)
           (UsageManager.promptUsed d
              + sumOver UsageManager.u_prompt updates)
           (UsageManager.completionUsed d
              + sumOver UsageManager.u_completion updates)).
Proof.
  induction updates as [|u rest IH]; intros disk d Hw Hfile Hm.
  - cbn. rewrite Hfile, !Z.add_0_r. destruct d; cbn in Hm. subst.
    reflexivity.
  - rewrite updateAll_cons, updateUsage_run.
    unfold UsageManager.dirExists. rewrite Hfile, Hw. cbn [andb snd].
    erewrite IH; [|reflexivity|reflexivity|].
    + unfold tallied. rewrite bool_decide_eq_true_2 by exact Hm.
      cbn [UsageManager.totalUsed UsageManager.promptUsed
           UsageManager.completionUsed sumOver foldr].
      fold (sumOver UsageManager.u_total rest).
      fold (sumOver UsageManager.u_prompt rest).
      fold (sumOver UsageManager.u_completion rest).
      f_equal. f_equal; lia.
    + unfold tallied. rewrite bool_decide_eq_true_2 by exact Hm.
      reflexivity.
Qed.

(** X19. On a file it can write, a run of [updateUsage] calls adds the
    sums of the three reported counts to a tally of [currentMonth]; from a
    file that is absent, unparsable or of another month a run of at least
    one call leaves exactly the sums. *)
Theorem updateAll_adds_up
    (cm : string) (updates : list UsageManager.Update)
    (disk : UsageManager.Disk) :
  UsageManager.dirExists disk = true →
  UsageManager.writable disk = true →
  (∀ d, UsageManager.usageFile disk = UsageManager.Saved d →
     UsageManager.month d = cm →
     UsageManager.usageFile (UsageManager.updateAll cm updates disk) =
       UsageManager.Saved
         (UsageManager.mkUsageData cm
            (UsageManager.totalUsed d
               + sumOver UsageManager.u_total updates)
            (UsageManager.promptUsed d
               + sumOver UsageManager.u_prompt updates)
            (UsageManager.completionUsed d
               + sumOver UsageManager.u_completion updates))) ∧
  ((∀ d, UsageManager.usageFile disk = UsageManager.Saved d →
      UsageManager.month d ≠ cm) →
   updates ≠ [] →
   UsageManager.usageFile (UsageManager.updateAll cm updates disk) =
     UsageManager.Saved
       (UsageManager.mkUsageData cm
          (sumOver UsageManager.u_total updates)
          (sumOver UsageManager.u_prompt updates)
          (sumOver UsageManager.u_completion updates))).
Proof.
  intros Hdir Hw. split.
  - intros d Hfile Hm. apply updateAll_from_current_month; assumption.
  - intros Hother Hne. destruct updates as [|u rest]; [destruct Hne;
      reflexivity|].
    rewrite updateAll_cons, updateUsage_run.
    rewrite Hdir, Hw. cbn [andb snd].
    erewrite updateAll_from_current_month; [|reflexivity|reflexivity|].
    + assert (Htal : tallied cm u (UsageManager.usageFile disk) =
                UsageManager.mkUsageData cm (UsageManager.u_total u)
                  (UsageManager.u_prompt u) (UsageManager.u_completion u)).
      { unfold tallied.
        destruct (UsageManager.usageFile disk) as [| | |d]; try reflexivity.
        rewrite bool_decide_eq_false_2 by (apply Hother; reflexivity).
        reflexivity. }
      rewrite Htal. reflexivity.
    + unfold tallied.
      destruct (UsageManager.usageFile disk) as [| | |d]; try reflexivity.
      destruct (bool_decide _); reflexivity.
Qed.

Lemma updateAll_adds_up_witness :
  UsageManager.usageFile
    (UsageManager.updateAll "2026-11"
       [UsageManager.mkUpdate 7 5 12; UsageManager.mkUpdate 20 10 30]
       (UsageManager.mkDisk
          (UsageManager.Saved (UsageManager.mkUsageData "2026-10" 100 60 40))
          true [])) =
    UsageManager.Saved (UsageManager.mkUsageData "2026-11" 42 27 15).
Proof.
  apply (proj2 (updateAll_adds_up "2026-11"
                  [UsageManager.mkUpdate 7 5 12;
                   UsageManager.mkUpdate 20 10 30]
                  (UsageManager.mkDisk
                     (UsageManager.Saved
                        (UsageManager.mkUsageData "2026-10" 100 60 40))
                     true []) eq_refl eq_refl)).
  - intros d Hd. inversion Hd; subst d. discriminate.
  - discriminate.
Defined.
